(** * Price optimisation service: linear demand, closed-form optimum, OLS fit

    Shallow embedding of [service.py] and [classes.py].

    Numbers.  The service computes on Python floats.  Here every float is an
    exact rational ([Q], compared with [==]); rounding, infinities and NaN
    are outside the model, and the literal [1e-12] is the rational
    [1 / 10^12].  The statements about [optimize_with_sympy] and
    [fit_linear] are statements about the service in exact arithmetic.
    Where the service behaves otherwise on doubles, [Binary64.fit_linear],
    the twin of [fit_linear] on IEEE binary64 floats, is evaluated.

    Exceptions.  The service raises [werkzeug.exceptions.BadRequest] with a
    message; Python itself raises [ZeroDivisionError] on [x / 0] and
    [TypeError] when [float(...)] is applied to an expression that is not a
    number.  Fallible code lives in the error monad [result]. *)

From Stdlib Require Import QArith Qabs Lqa Lia List String Bool ZArith.
From Stdlib Require Import Setoid Morphisms Permutation.
From Stdlib Require Floats Uint63.
Import PrimFloat.
Import ListNotations.

Local Open Scope Q_scope.

(* ------------------------------------------------------------------ *)
(** ** Exceptions and the error monad                                   *)
(* ------------------------------------------------------------------ *)

(** The six rejections of the service.  Each is a [BadRequest] in the
    source; the constructor names are the kinds of the error taxonomy. *)
Inductive error_kind : Type :=
  | InvalidDemandSlope
  | InvalidPriceBounds
  | UnsolvableModel
  | InsufficientData
  | DegeneratePriceVariance
  | NonDecreasingFit.

(** The message carried by each [BadRequest], as written in [service.py]. *)
Definition message (k : error_kind) : string :=
  match k with
  | InvalidDemandSlope =>
      "beta deve ser > 0 (demanda precisa cair quando o preço sobe)."
  | InvalidPriceBounds => "pMax deve ser >= pMin."
  | UnsolvableModel =>
      "Não foi possível determinar simbolicamente o preço ótimo."
  | InsufficientData => "Forneça pelo menos 2 pares (preço, quantidade)."
  | DegeneratePriceVariance =>
      "Variância de preços ~ 0 (todos os preços são iguais)."
  | NonDecreasingFit =>
      "Slope não negativo (demanda não cai com o preço). Verifique seus dados de (preço, quantidade)."
  end%string.

Inductive exn : Type :=
  | BadRequest (k : error_kind)
  | ZeroDivisionError
  | TypeError.

Inductive result (A : Type) : Type :=
  | Ok (a : A)
  | Raise (e : exn).

Arguments Ok {A} a.
Arguments Raise {A} e.

Definition bind {A B : Type} (m : result A) (k : A -> result B) : result B :=
  match m with
  | Ok a => k a
  | Raise e => Raise e
  end.

Notation "x <- m ;; k" := (bind m (fun x => k))
  (at level 61, m at next level, right associativity).

(** [if cond: raise e] followed by the rest of the body. *)
Definition raise_if (cond : bool) (e : exn) : result unit :=
  if cond then Raise e else Ok tt.

Notation "'guard' c 'else_raise' e ;; k" := (bind (raise_if c e) (fun _ => k))
  (at level 61, c at next level, e at next level, right associativity).

(* ------------------------------------------------------------------ *)
(** ** Python float operations, on exact rationals                      *)
(* ------------------------------------------------------------------ *)

Definition Qleb (x y : Q) : bool := Qle_bool x y.
Definition Qltb (x y : Q) : bool := negb (Qle_bool y x).
Definition Qgtb (x y : Q) : bool := Qltb y x.

(** Python's [max(a, b)]: keeps [a] unless [b > a]. *)
Definition py_max (a b : Q) : Q := if Qgtb b a then b else a.

(** Python's [min(a, b)]: keeps [a] unless [b < a]. *)
Definition py_min (a b : Q) : Q := if Qltb b a then b else a.

(** Python's [a / b] on floats. *)
Definition py_div (a b : Q) : result Q :=
  if Qeq_bool b 0 then Raise ZeroDivisionError else Ok (a / b).

(** The literal [1e-12]. *)
Definition tol : Q := 1 # 1000000000000.

(** [sum(f(pt) for pt in l)]: a left-to-right accumulation from [0]. *)
Definition py_sum {A : Type} (f : A -> Q) (l : list A) : Q :=
  fold_left (fun acc x => acc + f x) l 0.

(* ------------------------------------------------------------------ *)
(** ** The symbolic layer (SymPy)                                       *)
(* ------------------------------------------------------------------ *)

(** The five symbols of [_build_symbolic_model]. *)
Inductive symbol : Type := p_s | alpha_s | beta_s | c_s | F_s.

Definition symbol_eqb (x y : symbol) : bool :=
  match x, y with
  | p_s, p_s | alpha_s, alpha_s | beta_s, beta_s | c_s, c_s | F_s, F_s => true
  | _, _ => false
  end.

Inductive expr : Type :=
  | Num (q : Q)
  | Sym (s : symbol)
  | Add (a b : expr)
  | Sub (a b : expr)
  | Mul (a b : expr)
  | Div (a b : expr)
  | Neg (a : expr).

(** [diff(e, x)]. *)
Fixpoint diff (e : expr) (x : symbol) : expr :=
  match e with
  | Num _ => Num 0
  | Sym s => if symbol_eqb s x then Num 1 else Num 0
  | Add a b => Add (diff a x) (diff b x)
  | Sub a b => Sub (diff a x) (diff b x)
  | Mul a b => Add (Mul (diff a x) b) (Mul a (diff b x))
  | Div a b =>
      Div (Sub (Mul (diff a x) b) (Mul a (diff b x))) (Mul b b)
  | Neg a => Neg (diff a x)
  end.

(** [e.subs(env)]: every symbol bound in [env] is replaced by its number. *)
Fixpoint subs (env : symbol -> option Q) (e : expr) : expr :=
  match e with
  | Num q => Num q
  | Sym s => match env s with Some v => Num v | None => Sym s end
  | Add a b => Add (subs env a) (subs env b)
  | Sub a b => Sub (subs env a) (subs env b)
  | Mul a b => Mul (subs env a) (subs env b)
  | Div a b => Div (subs env a) (subs env b)
  | Neg a => Neg (subs env a)
  end.

Definition is_zero (e : expr) : bool :=
  match e with Num q => Qeq_bool q 0 | _ => false end.

Definition is_one (e : expr) : bool :=
  match e with Num q => Qeq_bool q 1 | _ => false end.

(** [simplify(e)]: folds the neutral and absorbing constants that
    differentiation leaves behind.  What the service relies on is that the
    simplified expression has the value of the original one
    (see [simplify_sound]). *)
Fixpoint simplify (e : expr) : expr :=
  match e with
  | Num q => Num q
  | Sym s => Sym s
  | Add a b =>
      let a' := simplify a in
      let b' := simplify b in
      if is_zero a' then b' else if is_zero b' then a' else Add a' b'
  | Sub a b =>
      let a' := simplify a in
      let b' := simplify b in
      if is_zero b' then a' else if is_zero a' then Neg b' else Sub a' b'
  | Mul a b =>
      let a' := simplify a in
      let b' := simplify b in
      if is_zero a' then Num 0 else if is_zero b' then Num 0
      else if is_one a' then b' else if is_one b' then a' else Mul a' b'
  | Div a b =>
      let a' := simplify a in
      let b' := simplify b in
      if is_one b' then a' else Div a' b'
  | Neg a =>
      let a' := simplify a in
      if is_zero a' then Num 0 else Neg a'
  end.

(** Does the symbol occur in the expression? *)
Fixpoint mentions (x : symbol) (e : expr) : bool :=
  match e with
  | Num _ => false
  | Sym s => symbol_eqb s x
  | Add a b | Sub a b | Mul a b | Div a b => mentions x a || mentions x b
  | Neg a => mentions x a
  end.

(** [solve(Eq(e, 0), x)] for an equation that is linear in [x]:
    with [e = a*x + b], where [a = diff(e, x)] and [b = e] at [x = 0],
    the solution list is [[-b/a]]; there is no solution when [a] is the
    constant zero, and nothing is returned for an equation whose derivative
    still mentions [x]. *)
Definition solve (e : expr) (x : symbol) : list expr :=
  let a := simplify (diff e x) in
  let b := simplify (subs (fun s => if symbol_eqb s x then Some 0 else None) e) in
  if mentions x a then []
  else if is_zero a then []
  else [Div (Neg b) a].

(** [float(e.evalf())]: the number an expression denotes; [TypeError] when
    a symbol is left or when a denominator is zero (SymPy's [zoo] does not
    convert to a float). *)
Fixpoint evalf (e : expr) : result Q :=
  match e with
  | Num q => Ok q
  | Sym _ => Raise TypeError
  | Add a b => x <- evalf a ;; y <- evalf b ;; Ok (x + y)
  | Sub a b => x <- evalf a ;; y <- evalf b ;; Ok (x - y)
  | Mul a b => x <- evalf a ;; y <- evalf b ;; Ok (x * y)
  | Div a b =>
      x <- evalf a ;; y <- evalf b ;;
      if Qeq_bool y 0 then Raise TypeError else Ok (x / y)
  | Neg a => x <- evalf a ;; Ok (- x)
  end.

(** The dictionary returned by [_build_symbolic_model]. *)
Record SymbolicModel : Type := {
  sm_q : expr;
  sm_pi : expr;
  sm_dpi : expr;
  sm_d2 : expr;
  sm_p_star : option expr
}.

Definition _build_symbolic_model : SymbolicModel :=
  let p := Sym p_s in
  let alpha := Sym alpha_s in
  let beta := Sym beta_s in
  let c := Sym c_s in
  let F := Sym F_s in
  (* Demanda *)
  let q := Sub alpha (Mul beta p) in
  (* Lucro *)
  let pi := Sub (Mul p q) (Add F (Mul c q)) in
  (* Derivadas *)
  let dpi := diff pi p_s in
  let d2 := diff dpi p_s in
  (* p_star tal que dpi(p_star) = 0 *)
  let p_star_solutions := solve dpi p_s in
  let p_star_expr :=
    match p_star_solutions with
    | s :: _ => Some (simplify s)
    | [] => None
    end in
  {| sm_q := simplify q;
     sm_pi := simplify pi;
     sm_dpi := simplify dpi;
     sm_d2 := simplify d2;
     sm_p_star := option_map simplify p_star_expr |}.

Definition SYMS : SymbolicModel := _build_symbolic_model.

(* ------------------------------------------------------------------ *)
(** ** The data classes of [classes.py]                                 *)
(* ------------------------------------------------------------------ *)

Module OptimizeRequest.
Record t : Type := mk {
  alpha : Q;
  beta : Q;
  c : Q;
  F : Q;
  pMin : Q;
  pMax : Q
}.

(** The [Field] constraints that pydantic checks when the HTTP layer
    builds the request: [ge=0] everywhere, [gt=0] on [beta]. *)
Definition field_constraints (r : t) : bool :=
  Qleb 0 (alpha r) && Qltb 0 (beta r) && Qleb 0 (c r) && Qleb 0 (F r)
  && Qleb 0 (pMin r) && Qleb 0 (pMax r).
End OptimizeRequest.

(** The derivation of the profit function.  The source stores the text
    ([str]) and the LaTeX ([latex]) rendering of each expression; the
    record keeps the expressions that are rendered. *)
Module Derivation.
Record t : Type := mk {
  objective : expr;
  d1 : expr;
  d2 : expr;
  pStarFormula : expr
}.
End Derivation.

Module OptimizeResponse.
Record t : Type := mk {
  pOpt : Q;
  qOpt : Q;
  profitOpt : Q;
  revenue : Q;
  margin : Q;
  elasticity : Q;
  usedBoundary : bool;
  derivation : option Derivation.t
}.
End OptimizeResponse.

Module FitPoint.
Record t : Type := mk {
  price : Q;
  quantity : Q
}.
End FitPoint.

Module FitResponse.
Record t : Type := mk {
  alpha : Q;
  beta : Q;
  slope : Q;
  intercept : Q;
  r2 : Q
}.
End FitResponse.

(* ------------------------------------------------------------------ *)
(** ** [optimize_with_sympy]                                            *)
(* ------------------------------------------------------------------ *)

(** The substitution [{alpha_s: req.alpha, beta_s: req.beta, c_s: req.c}]. *)
Definition p_star_env (req : OptimizeRequest.t) (s : symbol) : option Q :=
  match s with
  | alpha_s => Some (OptimizeRequest.alpha req)
  | beta_s => Some (OptimizeRequest.beta req)
  | c_s => Some (OptimizeRequest.c req)
  | _ => None
  end.

(** The substitution [{alpha_s: req.alpha, beta_s: req.beta, p: p_opt}]. *)
Definition q_env (req : OptimizeRequest.t) (p_opt : Q) (s : symbol) : option Q :=
  match s with
  | alpha_s => Some (OptimizeRequest.alpha req)
  | beta_s => Some (OptimizeRequest.beta req)
  | p_s => Some p_opt
  | _ => None
  end.

(** The number substituted into the clamp: [p_star_num] of the source. *)
Definition p_star_num (req : OptimizeRequest.t) (p_star_expr : expr) : result Q :=
  evalf (subs (p_star_env req) p_star_expr).

(** [min(max(p_star_num, req.pMin), req.pMax)]. *)
Definition clamp (x lo hi : Q) : Q := py_min (py_max x lo) hi.

(** In exact arithmetic: the revenue, the profit and the margin are
    rationals of any size, where a double can overflow to [inf] and give a
    NaN margin. *)
Definition optimize_with_sympy (req : OptimizeRequest.t)
  : result OptimizeResponse.t :=
  let alpha := OptimizeRequest.alpha req in
  let beta := OptimizeRequest.beta req in
  let c := OptimizeRequest.c req in
  let F := OptimizeRequest.F req in
  guard (Qleb beta 0) else_raise (BadRequest InvalidDemandSlope) ;;
  guard (Qgtb (OptimizeRequest.pMin req) (OptimizeRequest.pMax req))
    else_raise (BadRequest InvalidPriceBounds) ;;
  (* Formula simbolica de p_star *)
  match sm_p_star SYMS with
  | None => Raise (BadRequest UnsolvableModel)
  | Some p_star_expr =>
      (* Substitui parametros na formula de p_star *)
      p_star_num <- p_star_num req p_star_expr ;;
      (* Respeita dominio [pMin, pMax] *)
      let p_opt :=
        clamp p_star_num (OptimizeRequest.pMin req) (OptimizeRequest.pMax req) in
      let used_boundary := Qgtb (Qabs (p_opt - p_star_num)) tol in
      (* Demanda otima *)
      q_val <- evalf (subs (q_env req p_opt) (sm_q SYMS)) ;;
      let q_opt := py_max 0 q_val in
      (* Receita e lucro *)
      let revenue := p_opt * q_opt in
      let profit_opt := revenue - (F + c * q_opt) in
      (* Margem media (so custo variavel) *)
      margin <- (if Qgtb revenue 0
                 then py_div (revenue - c * q_opt) revenue
                 else Ok 0) ;;
      (* Elasticidade-preco da demanda em p_opt *)
      elasticity <- (if Qgtb q_opt 0
                     then py_div (- beta * p_opt) (alpha - beta * p_opt)
                     else Ok 0) ;;
      let deriv :=
        Derivation.mk (sm_pi SYMS) (sm_dpi SYMS) (sm_d2 SYMS) p_star_expr in
      Ok (OptimizeResponse.mk p_opt q_opt profit_opt revenue margin
            elasticity used_boundary (Some deriv))
  end.

(* ------------------------------------------------------------------ *)
(** ** [fit_linear]                                                     *)
(* ------------------------------------------------------------------ *)

(** [len(pontos)] as a number. *)
Definition count (pontos : list FitPoint.t) : Q :=
  inject_Z (Z.of_nat (List.length pontos)).

(** In exact arithmetic: the sums do not round, [** 2] cannot overflow and
    no number is NaN.  [Binary64.fit_linear] is the same body on doubles. *)
Definition fit_linear (pontos : list FitPoint.t) : result FitResponse.t :=
  let n := List.length pontos in
  guard (n <? 2)%nat else_raise (BadRequest InsufficientData) ;;
  let n := count pontos in
  (* Somatorios basicos *)
  let sumP := py_sum FitPoint.price pontos in
  let sumQ := py_sum FitPoint.quantity pontos in
  let sumPP := py_sum (fun pt => FitPoint.price pt * FitPoint.price pt) pontos in
  let sumPQ :=
    py_sum (fun pt => FitPoint.price pt * FitPoint.quantity pt) pontos in
  (* Medias *)
  meanP <- py_div sumP n ;;
  meanQ <- py_div sumQ n ;;
  (* Sxx e Sxy *)
  let sxx := sumPP - n * meanP * meanP in
  let sxy := sumPQ - n * meanP * meanQ in
  guard (Qltb (Qabs sxx) tol) else_raise (BadRequest DegeneratePriceVariance) ;;
  (* Coeficientes da regressao q = intercept + slope * p *)
  slope <- py_div sxy sxx ;;
  let intercept := meanQ - slope * meanP in
  (* R2 *)
  let ss_tot := py_sum (fun pt => (FitPoint.quantity pt - meanQ) ^ 2) pontos in
  let ss_res :=
    py_sum (fun pt =>
              (FitPoint.quantity pt - (intercept + slope * FitPoint.price pt)) ^ 2)
           pontos in
  r2 <- (if Qgtb ss_tot 0
         then (ratio <- py_div ss_res ss_tot ;; Ok (1 - ratio))
         else Ok 0) ;;
  (* Conversao para q(p) = alpha - beta * p *)
  let alpha := intercept in
  let beta := - slope in
  guard (Qleb beta 0) else_raise (BadRequest NonDecreasingFit) ;;
  Ok (FitResponse.mk alpha beta slope intercept r2).

(** The price variance term of the fit, [Sxx = sumPP - n*meanP*meanP]. *)
Definition Sxx (pontos : list FitPoint.t) : Q :=
  let n := count pontos in
  let meanP := py_sum FitPoint.price pontos / n in
  py_sum (fun pt => FitPoint.price pt * FitPoint.price pt) pontos
  - n * meanP * meanP.

(* ------------------------------------------------------------------ *)
(** ** Values, runs and predicates used in the statements               *)
(* ------------------------------------------------------------------ *)

(** The request of the worked scenario. *)
Definition scenario : OptimizeRequest.t :=
  OptimizeRequest.mk 1000 2 50 2000 0 1000.

(** The closed form [(alpha + beta*c) / (2*beta)]. *)
Definition closed_form (req : OptimizeRequest.t) : Q :=
  (OptimizeRequest.alpha req + OptimizeRequest.beta req * OptimizeRequest.c req)
  / (2 * OptimizeRequest.beta req).

(** A request with another fixed cost. *)
Definition with_F (req : OptimizeRequest.t) (F' : Q) : OptimizeRequest.t :=
  OptimizeRequest.mk (OptimizeRequest.alpha req) (OptimizeRequest.beta req)
    (OptimizeRequest.c req) F' (OptimizeRequest.pMin req)
    (OptimizeRequest.pMax req).

(** The formula that [solve] and [simplify] produce for the stationary
    point: [-(alpha - c*(-beta)) / (-beta + -beta)]. *)
Definition p_star_formula : expr :=
  Div (Neg (Sub (Sym alpha_s) (Mul (Sym c_s) (Neg (Sym beta_s)))))
      (Add (Neg (Sym beta_s)) (Neg (Sym beta_s))).

(** The value of the formula at a request, as [evalf] computes it. *)
Definition p_star_value (req : OptimizeRequest.t) : Q :=
  - (OptimizeRequest.alpha req
     - OptimizeRequest.c req * - OptimizeRequest.beta req)
  / (- OptimizeRequest.beta req + - OptimizeRequest.beta req).

(** The value of an expression, up to [==]. *)
Definition evaluates (e : expr) (v : Q) : Prop :=
  exists v', evalf e = Ok v' /\ v' == v.

(** The price returned: the clamped stationary point. *)
Definition p_opt_of (req : OptimizeRequest.t) : Q :=
  clamp (p_star_value req) (OptimizeRequest.pMin req) (OptimizeRequest.pMax req).

(** The quantity returned. *)
Definition q_opt_of (req : OptimizeRequest.t) : Q :=
  py_max 0 (OptimizeRequest.alpha req - OptimizeRequest.beta req * p_opt_of req).

Definition revenue_of (req : OptimizeRequest.t) : Q :=
  p_opt_of req * q_opt_of req.

Definition margin_of (req : OptimizeRequest.t) : Q :=
  if Qgtb (revenue_of req) 0
  then (revenue_of req - OptimizeRequest.c req * q_opt_of req) / revenue_of req
  else 0.

Definition elasticity_of (req : OptimizeRequest.t) : Q :=
  if Qgtb (q_opt_of req) 0
  then (- OptimizeRequest.beta req * p_opt_of req)
       / (OptimizeRequest.alpha req - OptimizeRequest.beta req * p_opt_of req)
  else 0.

Definition used_boundary_of (req : OptimizeRequest.t) : bool :=
  Qgtb (Qabs (p_opt_of req - p_star_value req)) tol.

(** The response that the body of [optimize_with_sympy] builds when no
    guard fires. *)
Definition response_of (req : OptimizeRequest.t) : OptimizeResponse.t :=
  OptimizeResponse.mk (p_opt_of req) (q_opt_of req)
    (revenue_of req - (OptimizeRequest.F req + OptimizeRequest.c req * q_opt_of req))
    (revenue_of req) (margin_of req) (elasticity_of req)
    (used_boundary_of req)
    (Some (Derivation.mk (sm_pi SYMS) (sm_dpi SYMS) (sm_d2 SYMS)
             p_star_formula)).

(** A request whose lower bound is beyond the price at which demand
    vanishes: [alpha=10, beta=2, c=0, F=0, pMin=8, pMax=10]. *)
Definition floor_request : OptimizeRequest.t :=
  OptimizeRequest.mk 10 2 0 0 8 10.

Definition sumP_of (pontos : list FitPoint.t) : Q :=
  py_sum FitPoint.price pontos.

Definition sumPP_of (pontos : list FitPoint.t) : Q :=
  py_sum (fun pt => FitPoint.price pt * FitPoint.price pt) pontos.

Definition meanP_of (pontos : list FitPoint.t) : Q :=
  py_sum FitPoint.price pontos / count pontos.

Definition meanQ_of (pontos : list FitPoint.t) : Q :=
  py_sum FitPoint.quantity pontos / count pontos.

(** [Sxy = sumPQ - n*meanP*meanQ]. *)
Definition Sxy (pontos : list FitPoint.t) : Q :=
  py_sum (fun pt => FitPoint.price pt * FitPoint.quantity pt) pontos
  - count pontos * meanP_of pontos * meanQ_of pontos.

Definition slope_of (pontos : list FitPoint.t) : Q :=
  Sxy pontos / Sxx pontos.

Definition intercept_of (pontos : list FitPoint.t) : Q :=
  meanQ_of pontos - slope_of pontos * meanP_of pontos.

Definition ss_tot_of (pontos : list FitPoint.t) : Q :=
  py_sum (fun pt => (FitPoint.quantity pt - meanQ_of pontos) ^ 2) pontos.

Definition ss_res_of (pontos : list FitPoint.t) : Q :=
  py_sum (fun pt =>
            (FitPoint.quantity pt
             - (intercept_of pontos + slope_of pontos * FitPoint.price pt)) ^ 2)
         pontos.

Definition r2_of (pontos : list FitPoint.t) : Q :=
  if Qgtb (ss_tot_of pontos) 0
  then 1 - ss_res_of pontos / ss_tot_of pontos
  else 0.

Definition fit_of (pontos : list FitPoint.t) : FitResponse.t :=
  FitResponse.mk (intercept_of pontos) (- slope_of pontos) (slope_of pontos)
    (intercept_of pontos) (r2_of pontos).

(** Observations generated by the demand law [q = A - B*p]. *)
Definition on_line (A B : Q) (pontos : list FitPoint.t) : Prop :=
  forall pt, In pt pontos -> FitPoint.quantity pt == A - B * FitPoint.price pt.

(** On the list, [g] is the affine function [u - w*price] of the price. *)
Definition affine_on (g : FitPoint.t -> Q) (u w : Q) (l : list FitPoint.t)
  : Prop :=
  forall pt, In pt l -> g pt == u - w * FitPoint.price pt.

(** Two requests that carry the same numbers. *)
Definition req_eq (r1 r2 : OptimizeRequest.t) : Prop :=
  OptimizeRequest.alpha r1 == OptimizeRequest.alpha r2
  /\ OptimizeRequest.beta r1 == OptimizeRequest.beta r2
  /\ OptimizeRequest.c r1 == OptimizeRequest.c r2
  /\ OptimizeRequest.F r1 == OptimizeRequest.F r2
  /\ OptimizeRequest.pMin r1 == OptimizeRequest.pMin r2
  /\ OptimizeRequest.pMax r1 == OptimizeRequest.pMax r2.

(** Two responses that carry the same numbers, flag and derivation. *)
Definition resp_eq (r1 r2 : OptimizeResponse.t) : Prop :=
  OptimizeResponse.pOpt r1 == OptimizeResponse.pOpt r2
  /\ OptimizeResponse.qOpt r1 == OptimizeResponse.qOpt r2
  /\ OptimizeResponse.profitOpt r1 == OptimizeResponse.profitOpt r2
  /\ OptimizeResponse.revenue r1 == OptimizeResponse.revenue r2
  /\ OptimizeResponse.margin r1 == OptimizeResponse.margin r2
  /\ OptimizeResponse.elasticity r1 == OptimizeResponse.elasticity r2
  /\ OptimizeResponse.usedBoundary r1 = OptimizeResponse.usedBoundary r2
  /\ OptimizeResponse.derivation r1 = OptimizeResponse.derivation r2.

(** Two outcomes of the service: the same exception, or responses that
    carry the same numbers. *)
Definition outcome_eq (o1 o2 : result OptimizeResponse.t) : Prop :=
  match o1, o2 with
  | Ok r1, Ok r2 => resp_eq r1 r2
  | Raise e1, Raise e2 => e1 = e2
  | _, _ => False
  end.

(** At least two of the observed prices differ. *)
Definition distinct_prices (pontos : list FitPoint.t) : Prop :=
  exists a b,
    In a pontos /\ In b pontos /\ ~ FitPoint.price a == FitPoint.price b.

(** Two observations on [q = 10 - 2*p] whose prices, [0] and [1e-7],
    differ by less than the variance guard can see. *)
Definition close_points : list FitPoint.t :=
  [FitPoint.mk 0 10; FitPoint.mk (1 # 10000000) (10 - 2 * (1 # 10000000))].

(** Three observations on [q = 10 - 2*p], at the prices [0], [1], [3]. *)
Definition line_points : list FitPoint.t :=
  [FitPoint.mk 0 10; FitPoint.mk 1 8; FitPoint.mk 3 4].

(** The request built from fitted parameters and the caller's costs and
    bounds. *)
Definition request_of_fit (fr : FitResponse.t) (c F pMin pMax : Q)
  : OptimizeRequest.t :=
  OptimizeRequest.mk (FitResponse.alpha fr) (FitResponse.beta fr) c F pMin pMax.

(** A single observation. *)
Definition single_point : list FitPoint.t := [FitPoint.mk 100 5].

(** The profit function of the model at a price,
    [p*q(p) - (F + c*q(p))] with [q(p) = alpha - beta*p]. *)
Definition profit_at (req : OptimizeRequest.t) (p : Q) : Q :=
  p * (OptimizeRequest.alpha req - OptimizeRequest.beta req * p)
  - (OptimizeRequest.F req
     + OptimizeRequest.c req
       * (OptimizeRequest.alpha req - OptimizeRequest.beta req * p)).

(** The substitution that gives every symbol of the model its number. *)
Definition full_env (req : OptimizeRequest.t) (p : Q) (s : symbol) : option Q :=
  match s with
  | p_s => Some p
  | alpha_s => Some (OptimizeRequest.alpha req)
  | beta_s => Some (OptimizeRequest.beta req)
  | c_s => Some (OptimizeRequest.c req)
  | F_s => Some (OptimizeRequest.F req)
  end.

Definition sumQ_of (pontos : list FitPoint.t) : Q :=
  py_sum FitPoint.quantity pontos.

Definition sumQQ_of (pontos : list FitPoint.t) : Q :=
  py_sum (fun pt => FitPoint.quantity pt * FitPoint.quantity pt) pontos.

Definition sumPQ_of (pontos : list FitPoint.t) : Q :=
  py_sum (fun pt => FitPoint.price pt * FitPoint.quantity pt) pontos.

(** The sum of the squared residuals of the line [q = a + b*p]. *)
Definition rss (pontos : list FitPoint.t) (a b : Q) : Q :=
  py_sum (fun pt => (FitPoint.quantity pt - (a + b * FitPoint.price pt)) ^ 2)
         pontos.

(** [Syy = sumQQ - n*meanQ*meanQ]. *)
Definition Syy (pontos : list FitPoint.t) : Q :=
  sumQQ_of pontos - count pontos * meanQ_of pontos * meanQ_of pontos.

(** Two observations at the same price. *)
Definition equal_price_points : list FitPoint.t :=
  [FitPoint.mk 100 5; FitPoint.mk 100 7].

(** Three observations on the rising line [q = 1 + 2*p]. *)
Definition rising_points : list FitPoint.t :=
  [FitPoint.mk 0 1; FitPoint.mk 1 3; FitPoint.mk 2 5].

(** Two fit responses that carry the same numbers. *)
Definition fit_resp_eq (r1 r2 : FitResponse.t) : Prop :=
  FitResponse.alpha r1 == FitResponse.alpha r2
  /\ FitResponse.beta r1 == FitResponse.beta r2
  /\ FitResponse.slope r1 == FitResponse.slope r2
  /\ FitResponse.intercept r1 == FitResponse.intercept r2
  /\ FitResponse.r2 r1 == FitResponse.r2 r2.

(** Two outcomes of the fit: the same exception, or responses that carry
    the same numbers. *)
Definition fit_outcome_eq (o1 o2 : result FitResponse.t) : Prop :=
  match o1, o2 with
  | Ok r1, Ok r2 => fit_resp_eq r1 r2
  | Raise e1, Raise e2 => e1 = e2
  | _, _ => False
  end.

(* ------------------------------------------------------------------ *)
(** ** The HTTP layer of [app.py]                                       *)
(* ------------------------------------------------------------------ *)

(** JSON values, as [request.get_json()] returns them: [JNull] is
    Python's [None], [JObj] a [dict], [JArr] a [list]. *)
#[warnings="-register-all"]
Inductive json : Type :=
  | JNull
  | JBool (b : bool)
  | JNum (q : Q)
  | JStr (s : string)
  | JArr (items : list json)
  | JObj (fields : list (string * json)).

(** [d.get(k)] on a [dict]. *)
Fixpoint dict_get (k : string) (d : list (string * json)) : option json :=
  match d with
  | [] => None
  | (k', v) :: d' => if String.eqb k k' then Some v else dict_get k d'
  end.

(** The constraint of a pydantic [Field]: [ge=0], [gt=0], or none. *)
Inductive constraint : Type := ge0 | gt0 | unconstrained.

Definition satisfies (c : constraint) (x : Q) : bool :=
  match c with
  | ge0 => Qleb 0 x
  | gt0 => Qltb 0 x
  | unconstrained => true
  end.

(** The validation of one [float] field of a model built from the
    keyword arguments [d]: the key must be present, its value must be
    accepted as a float, and the float must satisfy the constraint.
    [coerce] is pydantic's conversion of a JSON value to a float; [None]
    stands for a validation error. *)
Definition float_field (coerce : json -> option Q) (c : constraint)
  (d : list (string * json)) (k : string) : option Q :=
  match dict_get k d with
  | None => None
  | Some v =>
      match coerce v with
      | None => None
      | Some x => if satisfies c x then Some x else None
      end
  end.

(** The model [OptimizeRequest] built from the keyword arguments [d];
    [None] is a [ValidationError]. *)
Definition OptimizeRequest_init (coerce : json -> option Q)
  (d : list (string * json)) : option OptimizeRequest.t :=
  match float_field coerce ge0 d "alpha", float_field coerce gt0 d "beta",
        float_field coerce ge0 d "c", float_field coerce ge0 d "F",
        float_field coerce ge0 d "pMin", float_field coerce ge0 d "pMax" with
  | Some alpha, Some beta, Some c, Some F, Some pMin, Some pMax =>
      Some (OptimizeRequest.mk alpha beta c F pMin pMax)
  | _, _, _, _, _, _ => None
  end.

(** The model [FitPoint] built from an item of the list; an item that is
    not an object is a validation error. *)
Definition FitPoint_init (coerce : json -> option Q) (j : json)
  : option FitPoint.t :=
  match j with
  | JObj d =>
      match float_field coerce unconstrained d "price",
            float_field coerce unconstrained d "quantity" with
      | Some price, Some quantity => Some (FitPoint.mk price quantity)
      | _, _ => None
      end
  | _ => None
  end.

(** Validates every item of a list; one invalid item invalidates all. *)
Fixpoint all_valid {A B : Type} (f : A -> option B) (l : list A)
  : option (list B) :=
  match l with
  | [] => Some []
  | x :: rest =>
      match f x with
      | None => None
      | Some y => option_map (cons y) (all_valid f rest)
      end
  end.

(** The field [data] of the model [FitRequest] built from the keyword
    arguments [d]; [None] is a [ValidationError]. *)
Definition FitRequest_init (coerce : json -> option Q)
  (d : list (string * json)) : option (list FitPoint.t) :=
  match dict_get "data" d with
  | Some (JArr items) => all_valid (FitPoint_init coerce) items
  | _ => None
  end.

Inductive http_method : Type := GET | POST | OPTIONS.

(** What [request.get_json()] does: it raises, or it returns a value. *)
Inductive json_request : Type :=
  | GetJsonRaises
  | GetJson (data : json).

(** The text of an error response: a literal of [app.py], or [str(e)] of
    the exception that was caught. *)
Inductive error_text : Type :=
  | Literal (s : string)
  | StrOfValidationError
  | StrOfRaised (e : exn)
  | StrOfOther.

(** The body of a response. *)
Inductive payload : Type :=
  | EmptyBody
  | ErrorJson (message : error_text)
  | OptimizeJson (res : OptimizeResponse.t)
  | FitJson (res : FitResponse.t)
  | StatusOkJson
  | WelcomeJson.

Record http_response : Type := {
  body : payload;
  status : nat
}.

(** [jsonify({"error": message}), status_code]. *)
Definition error_response (message : error_text) (status_code : nat)
  : http_response :=
  {| body := ErrorJson message; status := status_code |}.

Definition post_optimize (coerce : json -> option Q) (method : http_method)
  (request : json_request) : http_response :=
  match method with
  | OPTIONS => {| body := EmptyBody; status := 204 |}
  | _ =>
      match request with
      | GetJsonRaises => error_response StrOfOther 500
      | GetJson JNull =>
          error_response (Literal "Corpo JSON ausente ou inválido.") 422
      | GetJson (JObj d) =>
          match OptimizeRequest_init coerce d with
          | None => error_response StrOfValidationError 422
          | Some req =>
              match optimize_with_sympy req with
              | Ok res => {| body := OptimizeJson res; status := 200 |}
              | Raise e => error_response (StrOfRaised e) 500
              end
          end
      | GetJson _ => error_response StrOfOther 500
      end
  end.

Definition post_fit (coerce : json -> option Q) (method : http_method)
  (request : json_request) : http_response :=
  match method with
  | OPTIONS => {| body := EmptyBody; status := 204 |}
  | _ =>
      match request with
      | GetJsonRaises => error_response StrOfOther 500
      | GetJson JNull =>
          error_response (Literal "Corpo JSON ausente ou inválido.") 422
      | GetJson (JObj d) =>
          match FitRequest_init coerce d with
          | None => error_response StrOfValidationError 422
          | Some data =>
              match fit_linear data with
              | Ok res => {| body := FitJson res; status := 200 |}
              | Raise e => error_response (StrOfRaised e) 500
              end
          end
      | GetJson _ => error_response StrOfOther 500
      end
  end.

Definition ping (method : http_method) : http_response :=
  match method with
  | OPTIONS => {| body := EmptyBody; status := 204 |}
  | _ => {| body := StatusOkJson; status := 200 |}
  end.

Definition index (method : http_method) : http_response :=
  match method with
  | OPTIONS => {| body := EmptyBody; status := 204 |}
  | _ => {| body := WelcomeJson; status := 200 |}
  end.

(** The conversion that accepts JSON numbers only. *)
Definition numbers_only (j : json) : option Q :=
  match j with JNum q => Some q | _ => None end.

(** A JSON object that holds the six numbers of a request. *)
Definition optimize_payload (req : OptimizeRequest.t) : json :=
  JObj [("alpha", JNum (OptimizeRequest.alpha req));
        ("beta", JNum (OptimizeRequest.beta req));
        ("c", JNum (OptimizeRequest.c req));
        ("F", JNum (OptimizeRequest.F req));
        ("pMin", JNum (OptimizeRequest.pMin req));
        ("pMax", JNum (OptimizeRequest.pMax req))]%string.

(** The JSON object of one observation, and of a list of them. *)
Definition point_json (pt : FitPoint.t) : json :=
  JObj [("price", JNum (FitPoint.price pt));
        ("quantity", JNum (FitPoint.quantity pt))]%string.

Definition fit_payload (pontos : list FitPoint.t) : json :=
  JObj [("data", JArr (map point_json pontos))]%string.

(* ------------------------------------------------------------------ *)
(** ** [fit_linear] on IEEE doubles                                     *)
(* ------------------------------------------------------------------ *)

(** The twin of [fit_linear] on binary64 floats, for what the code does
    where rounding, overflow and NaN matter.  Every Python operation is the
    IEEE operation of the same name, rounded to nearest; [x / y] raises
    only on a zero divisor; [x ** 2] raises [OverflowError] when a finite
    [x] has a square out of range; comparisons with NaN are false. *)

Set Warnings "-inexact-float".

Module Binary64.

Import Floats.

Local Open Scope float_scope.

Inductive exn : Type :=
  | BadRequest (k : error_kind)
  | ZeroDivisionError
  | OverflowError.

Inductive outcome (A : Type) : Type :=
  | Return (a : A)
  | Throw (e : exn).

Arguments Return {A} a.
Arguments Throw {A} e.

Definition bind {A B : Type} (m : outcome A) (k : A -> outcome B) : outcome B :=
  match m with
  | Return a => k a
  | Throw e => Throw e
  end.

Notation "x <-- m ;; k" := (bind m (fun x => k))
  (at level 61, m at next level, right associativity).

(** Python's [a / b] on floats. *)
Definition py_div (a b : float) : outcome float :=
  if b =? 0 then Throw ZeroDivisionError else Return (a / b).

(** Python's [x ** 2] on floats. *)
Definition py_square (x : float) : outcome float :=
  let y := x * x in
  if PrimFloat.is_infinity y && negb (PrimFloat.is_infinity x)
  then Throw OverflowError
  else Return y.

(** [sum(f(pt) for pt in l)]: left-to-right additions from [0]. *)
Definition py_sum {A : Type} (f : A -> float) (l : list A) : float :=
  fold_left (fun acc x => acc + f x) l 0.

(** The same sum when computing a term can raise: the terms are computed
    one by one, as the generator yields them. *)
Fixpoint py_sum_raising {A : Type} (f : A -> outcome float) (l : list A)
  (acc : float) : outcome float :=
  match l with
  | [] => Return acc
  | x :: rest => y <-- f x ;; py_sum_raising f rest (acc + y)
  end.

(** [len(pontos)], converted to a double where it meets one. *)
Definition count {A : Type} (l : list A) : float :=
  PrimFloat.of_uint63 (Uint63.of_Z (Z.of_nat (List.length l))).

Record FitPoint : Type := {
  price : float;
  quantity : float
}.

Record FitResponse : Type := {
  alpha : float;
  beta : float;
  slope : float;
  intercept : float;
  r2 : float
}.

Definition fit_linear (pontos : list FitPoint) : outcome FitResponse :=
  if (List.length pontos <? 2)%nat then Throw (BadRequest InsufficientData)
  else
    let n := count pontos in
    (* Somatorios basicos *)
    let sumP := py_sum price pontos in
    let sumQ := py_sum quantity pontos in
    let sumPP := py_sum (fun pt => price pt * price pt) pontos in
    let sumPQ := py_sum (fun pt => price pt * quantity pt) pontos in
    (* Medias *)
    meanP <-- py_div sumP n ;;
    meanQ <-- py_div sumQ n ;;
    (* Sxx e Sxy *)
    let sxx := sumPP - n * meanP * meanP in
    let sxy := sumPQ - n * meanP * meanQ in
    if abs sxx <? 1e-12 then Throw (BadRequest DegeneratePriceVariance)
    else
      (* Coeficientes da regressao q = intercept + slope * p *)
      slope <-- py_div sxy sxx ;;
      let intercept := meanQ - slope * meanP in
      (* R2 *)
      ss_tot <-- py_sum_raising
                   (fun pt => py_square (quantity pt - meanQ)) pontos 0 ;;
      ss_res <-- py_sum_raising
                   (fun pt =>
                      py_square (quantity pt - (intercept + slope * price pt)))
                   pontos 0 ;;
      r2 <-- (if 0 <? ss_tot
              then (ratio <-- py_div ss_res ss_tot ;; Return (1 - ratio))
              else Return 0) ;;
      (* Conversao para q(p) = alpha - beta * p *)
      let alpha := intercept in
      let beta := - slope in
      if beta <=? 0 then Throw (BadRequest NonDecreasingFit)
      else Return {| alpha := alpha; beta := beta; slope := slope;
                     intercept := intercept; r2 := r2 |}.

(** Two observations at the prices [1] and [2], the first with the
    quantity [1e155]. *)
Definition overflow_points : list FitPoint :=
  [ {| price := 1; quantity := 1e155 |}; {| price := 2; quantity := 0 |} ].

(** Three observations at the one price [56.9]. *)
Definition same_price_points : list FitPoint :=
  [ {| price := 56.9; quantity := 5 |}; {| price := 56.9; quantity := 7 |};
    {| price := 56.9; quantity := 9 |} ].

(** Two observations generated by [q = 10 - 2*p] at the prices [1000] and
    [1000.001]. *)
Definition generated_points : list FitPoint :=
  [ {| price := 1000; quantity := 10 - 2 * 1000 |};
    {| price := 1000.001; quantity := 10 - 2 * 1000.001 |} ].

End Binary64.

(* ------------------------------------------------------------------ *)
(** ** Comparisons and the Python primitives                            *)
(* ------------------------------------------------------------------ *)

Lemma Qleb_true (x y : Q) : Qleb x y = true <-> x <= y.
Proof. unfold Qleb. apply Qle_bool_iff. Qed.

Lemma Qleb_false (x y : Q) : Qleb x y = false <-> y < x.
Proof.
  unfold Qleb. split; intro H.
  - apply Qnot_le_lt. intro L. apply Qle_bool_iff in L. congruence.
  - destruct (Qle_bool x y) eqn:E; [|reflexivity].
    apply Qle_bool_iff in E. lra.
Qed.

Lemma Qltb_true (x y : Q) : Qltb x y = true <-> x < y.
Proof.
  unfold Qltb. rewrite negb_true_iff. apply (Qleb_false y x).
Qed.

Lemma Qltb_false (x y : Q) : Qltb x y = false <-> y <= x.
Proof.
  unfold Qltb. rewrite negb_false_iff. apply (Qleb_true y x).
Qed.

Lemma Qgtb_true (x y : Q) : Qgtb x y = true <-> y < x.
Proof. unfold Qgtb. apply Qltb_true. Qed.

Lemma Qgtb_false (x y : Q) : Qgtb x y = false <-> x <= y.
Proof. unfold Qgtb. apply Qltb_false. Qed.

Lemma Qeq_bool_false (x y : Q) : ~ x == y -> Qeq_bool x y = false.
Proof.
  intro H. destruct (Qeq_bool x y) eqn:E; [|reflexivity].
  apply Qeq_bool_iff in E. contradiction.
Qed.

#[export] Instance Qleb_proper : Proper (Qeq ==> Qeq ==> eq) Qleb.
Proof. intros x x' Hx y y' Hy. unfold Qleb. now rewrite Hx, Hy. Qed.

#[export] Instance Qltb_proper : Proper (Qeq ==> Qeq ==> eq) Qltb.
Proof. intros x x' Hx y y' Hy. unfold Qltb. now rewrite Hx, Hy. Qed.

#[export] Instance Qgtb_proper : Proper (Qeq ==> Qeq ==> eq) Qgtb.
Proof. intros x x' Hx y y' Hy. unfold Qgtb. now rewrite Hx, Hy. Qed.

#[export] Instance py_max_proper : Proper (Qeq ==> Qeq ==> Qeq) py_max.
Proof.
  intros x x' Hx y y' Hy. unfold py_max. rewrite Hx, Hy.
  destruct (Qgtb y' x'); assumption.
Qed.

#[export] Instance py_min_proper : Proper (Qeq ==> Qeq ==> Qeq) py_min.
Proof.
  intros x x' Hx y y' Hy. unfold py_min. rewrite Hx, Hy.
  destruct (Qltb y' x'); assumption.
Qed.

#[export] Instance clamp_proper : Proper (Qeq ==> Qeq ==> Qeq ==> Qeq) clamp.
Proof.
  intros x x' Hx lo lo' Hlo hi hi' Hhi. unfold clamp. now rewrite Hx, Hlo, Hhi.
Qed.

Lemma py_max_cases (a b : Q) :
  (a < b /\ py_max a b = b) \/ (b <= a /\ py_max a b = a).
Proof.
  unfold py_max. destruct (Qgtb b a) eqn:E.
  - left. apply Qgtb_true in E. auto.
  - right. apply Qgtb_false in E. auto.
Qed.

Lemma py_min_cases (a b : Q) :
  (b < a /\ py_min a b = b) \/ (a <= b /\ py_min a b = a).
Proof.
  unfold py_min. destruct (Qltb b a) eqn:E.
  - left. apply Qltb_true in E. auto.
  - right. apply Qltb_false in E. auto.
Qed.

(** The clamp returns one of its three arguments, chosen by position. *)
Lemma clamp_cases (x lo hi : Q) :
  lo <= hi ->
  (x < lo /\ clamp x lo hi = lo)
  \/ (hi < x /\ clamp x lo hi = hi)
  \/ (lo <= x <= hi /\ clamp x lo hi = x).
Proof.
  intro Hb. unfold clamp.
  destruct (py_max_cases x lo) as [[H1 E1]|[H1 E1]]; rewrite E1.
  - destruct (py_min_cases lo hi) as [[H2 E2]|[H2 E2]]; rewrite E2.
    + lra.
    + left. split; [assumption | reflexivity].
  - destruct (py_min_cases x hi) as [[H2 E2]|[H2 E2]]; rewrite E2.
    + right. left. split; [assumption | reflexivity].
    + right. right. split; [split; assumption | reflexivity].
Qed.

Lemma py_div_ok (a b : Q) : ~ b == 0 -> py_div a b = Ok (a / b).
Proof. intro H. unfold py_div. now rewrite Qeq_bool_false. Qed.

(* ------------------------------------------------------------------ *)
(** ** The symbolic model, evaluated                                    *)
(* ------------------------------------------------------------------ *)

Lemma SYMS_p_star : sm_p_star SYMS = Some p_star_formula.
Proof. vm_compute. reflexivity. Qed.

Lemma SYMS_q : sm_q SYMS = Sub (Sym alpha_s) (Mul (Sym beta_s) (Sym p_s)).
Proof. vm_compute. reflexivity. Qed.

Lemma p_star_num_ok (req : OptimizeRequest.t) :
  ~ OptimizeRequest.beta req == 0 ->
  p_star_num req p_star_formula = Ok (p_star_value req).
Proof.
  intro Hb. unfold p_star_num, p_star_formula. cbn.
  rewrite Qeq_bool_false; [reflexivity | lra].
Qed.

Lemma p_star_value_closed_form (req : OptimizeRequest.t) :
  ~ OptimizeRequest.beta req == 0 ->
  p_star_value req == closed_form req.
Proof.
  intro Hb. unfold p_star_value, closed_form. field. lra.
Qed.

Lemma q_evalf_ok (req : OptimizeRequest.t) (p_opt : Q) :
  evalf (subs (q_env req p_opt) (sm_q SYMS))
  = Ok (OptimizeRequest.alpha req - OptimizeRequest.beta req * p_opt).
Proof. rewrite SYMS_q. reflexivity. Qed.

Lemma is_zero_Num (e : expr) :
  is_zero e = true -> exists q, e = Num q /\ q == 0.
Proof.
  destruct e; cbn; try discriminate. intro H. apply Qeq_bool_iff in H. eauto.
Qed.

Lemma is_one_Num (e : expr) :
  is_one e = true -> exists q, e = Num q /\ q == 1.
Proof.
  destruct e; cbn; try discriminate. intro H. apply Qeq_bool_iff in H. eauto.
Qed.

Lemma evaluates_Num q v : q == v -> evaluates (Num q) v.
Proof. intro H. exists q. split; [reflexivity | exact H]. Qed.

(** Turns a successful [is_zero] or [is_one] test into its meaning. *)
Ltac zero_one H :=
  first [ apply is_zero_Num in H | apply is_one_Num in H ];
  let q := fresh "q" in let E := fresh "E" in let Hq := fresh "Hq" in
  destruct H as (q & E & Hq).

(** [simplify] keeps the value of every expression that has one. *)
Lemma simplify_sound (e : expr) (v : Q) :
  evalf e = Ok v -> evaluates (simplify e) v.
Proof.
  revert v. induction e as [q|s|a IHa b IHb|a IHa b IHb|a IHa b IHb|a IHa b IHb|a IHa];
    intros v H; cbn [simplify evalf] in *.
  - exists q. split; [reflexivity | now inversion H].
  - discriminate.
  - destruct (evalf a) as [x|] eqn:Ea; [|discriminate].
    destruct (evalf b) as [y|] eqn:Eb; [|discriminate].
    cbn [bind] in H. inversion H; subst v; clear H.
    destruct (IHa x eq_refl) as (x' & Hx & Ex).
    destruct (IHb y eq_refl) as (y' & Hy & Ey).
    destruct (is_zero (simplify a)) eqn:Za.
    { zero_one Za. rewrite E in Hx. inversion Hx; subst.
      exists y'. split; [exact Hy | lra]. }
    destruct (is_zero (simplify b)) eqn:Zb.
    { zero_one Zb. rewrite E in Hy. inversion Hy; subst.
      exists x'. split; [exact Hx | lra]. }
    exists (x' + y'). cbn [evalf]. rewrite Hx, Hy. split; [reflexivity | lra].
  - destruct (evalf a) as [x|] eqn:Ea; [|discriminate].
    destruct (evalf b) as [y|] eqn:Eb; [|discriminate].
    cbn [bind] in H. inversion H; subst v; clear H.
    destruct (IHa x eq_refl) as (x' & Hx & Ex).
    destruct (IHb y eq_refl) as (y' & Hy & Ey).
    destruct (is_zero (simplify b)) eqn:Zb.
    { zero_one Zb. rewrite E in Hy. inversion Hy; subst.
      exists x'. split; [exact Hx | lra]. }
    destruct (is_zero (simplify a)) eqn:Za.
    { zero_one Za. rewrite E in Hx. inversion Hx; subst.
      exists (- y'). cbn [evalf]. rewrite Hy. split; [reflexivity | lra]. }
    exists (x' - y'). cbn [evalf]. rewrite Hx, Hy. split; [reflexivity | lra].
  - destruct (evalf a) as [x|] eqn:Ea; [|discriminate].
    destruct (evalf b) as [y|] eqn:Eb; [|discriminate].
    cbn [bind] in H. inversion H; subst v; clear H.
    destruct (IHa x eq_refl) as (x' & Hx & Ex).
    destruct (IHb y eq_refl) as (y' & Hy & Ey).
    destruct (is_zero (simplify a)) eqn:Za.
    { zero_one Za. rewrite E in Hx. inversion Hx; subst.
      apply evaluates_Num. rewrite <- Ex, Hq. ring. }
    destruct (is_zero (simplify b)) eqn:Zb.
    { zero_one Zb. rewrite E in Hy. inversion Hy; subst.
      apply evaluates_Num. rewrite <- Ey, Hq. ring. }
    destruct (is_one (simplify a)) eqn:Oa.
    { zero_one Oa. rewrite E in Hx. inversion Hx; subst.
      exists y'. split; [exact Hy|]. rewrite <- Ex, Hq, Ey. ring. }
    destruct (is_one (simplify b)) eqn:Ob.
    { zero_one Ob. rewrite E in Hy. inversion Hy; subst.
      exists x'. split; [exact Hx|]. rewrite <- Ey, Hq, Ex. ring. }
    exists (x' * y'). cbn [evalf]. rewrite Hx, Hy.
    split; [reflexivity | now rewrite Ex, Ey].
  - destruct (evalf a) as [x|] eqn:Ea; [|discriminate].
    destruct (evalf b) as [y|] eqn:Eb; [|discriminate].
    cbn [bind] in H.
    destruct (Qeq_bool y 0) eqn:Ny; [discriminate|].
    inversion H; subst v; clear H.
    destruct (IHa x eq_refl) as (x' & Hx & Ex).
    destruct (IHb y eq_refl) as (y' & Hy & Ey).
    destruct (is_one (simplify b)) eqn:Ob.
    { zero_one Ob. rewrite E in Hy. inversion Hy; subst.
      exists x'. split; [exact Hx|]. rewrite <- Ey, Hq, Ex. field. }
    assert (Ny' : Qeq_bool y' 0 = false) by (rewrite Ey; exact Ny).
    exists (x' / y'). cbn [evalf]. rewrite Hx, Hy. cbn [bind].
    rewrite Ny'. split; [reflexivity | now rewrite Ex, Ey].
  - destruct (evalf a) as [x|] eqn:Ea; [|discriminate].
    cbn [bind] in H. inversion H; subst v; clear H.
    destruct (IHa x eq_refl) as (x' & Hx & Ex).
    destruct (is_zero (simplify a)) eqn:Za.
    { zero_one Za. rewrite E in Hx. inversion Hx; subst.
      apply evaluates_Num. rewrite <- Ex, Hq. ring. }
    exists (- x'). cbn [evalf]. rewrite Hx. split; [reflexivity | now rewrite Ex].
Qed.

(** The solved formula is a root of the first derivative of the profit. *)
Lemma p_star_stationary (req : OptimizeRequest.t) :
  ~ OptimizeRequest.beta req == 0 ->
  evaluates (subs (q_env req (p_star_value req))
               (subs (p_star_env req) (sm_dpi SYMS))) 0.
Proof.
  intro Hb. eexists. split; [vm_compute sm_dpi; cbn; reflexivity|].
  unfold p_star_value. field. lra.
Qed.

(** The second derivative of the profit is [-2*beta]: negative for a
    decreasing demand, so the stationary point is a maximum. *)
Lemma d2_value (req : OptimizeRequest.t) :
  evaluates (subs (p_star_env req) (sm_d2 SYMS))
    (- (2) * OptimizeRequest.beta req).
Proof.
  eexists. split; [vm_compute sm_d2; cbn; reflexivity|]. ring.
Qed.

(** A request that passes the field constraints of the data class is
    never rejected for its slope. *)
Lemma field_constraints_slope (req : OptimizeRequest.t) :
  OptimizeRequest.field_constraints req = true ->
  Qleb (OptimizeRequest.beta req) 0 = false.
Proof.
  unfold OptimizeRequest.field_constraints. rewrite !andb_true_iff.
  intros (((((_ & Hb) & _) & _) & _) & _).
  apply Qltb_true in Hb. apply Qleb_false. exact Hb.
Qed.

(* ------------------------------------------------------------------ *)
(** ** The run of [optimize_with_sympy] on a valid request              *)
(* ------------------------------------------------------------------ *)

Section ValidRun.
Variable req : OptimizeRequest.t.

Lemma q_opt_of_nonneg : 0 <= q_opt_of req.
Proof.
  unfold q_opt_of.
  destruct (py_max_cases 0 (OptimizeRequest.alpha req
                            - OptimizeRequest.beta req * p_opt_of req))
    as [[H E]|[H E]]; rewrite E; lra.
Qed.

(** When the returned quantity is positive it is the unclamped demand. *)
Lemma q_opt_of_pos :
  0 < q_opt_of req ->
  0 < OptimizeRequest.alpha req - OptimizeRequest.beta req * p_opt_of req.
Proof.
  unfold q_opt_of.
  destruct (py_max_cases 0 (OptimizeRequest.alpha req
                            - OptimizeRequest.beta req * p_opt_of req))
    as [[H E]|[H E]]; rewrite E; lra.
Qed.

Hypothesis beta_pos : 0 < OptimizeRequest.beta req.
Hypothesis bounds_ordered : OptimizeRequest.pMin req <= OptimizeRequest.pMax req.

(** On a valid request no guard fires, no division fails, and the body
    returns [response_of]. *)
Lemma optimize_valid : optimize_with_sympy req = Ok (response_of req).
Proof.
  unfold optimize_with_sympy.
  replace (Qleb (OptimizeRequest.beta req) 0) with false
    by (symmetry; apply Qleb_false; exact beta_pos).
  replace (Qgtb (OptimizeRequest.pMin req) (OptimizeRequest.pMax req))
    with false by (symmetry; apply Qgtb_false; exact bounds_ordered).
  cbn [raise_if bind]. rewrite SYMS_p_star.
  rewrite p_star_num_ok by lra.
  cbn [bind]. rewrite q_evalf_ok. cbn [bind].
  fold (p_opt_of req). fold (q_opt_of req). fold (revenue_of req).
  assert (Hm : (if Qgtb (revenue_of req) 0
                then py_div (revenue_of req
                             - OptimizeRequest.c req * q_opt_of req)
                            (revenue_of req)
                else Ok 0) = Ok (margin_of req)).
  { unfold margin_of. destruct (Qgtb (revenue_of req) 0) eqn:E; [|reflexivity].
    apply Qgtb_true in E. apply py_div_ok. lra. }
  assert (He : (if Qgtb (q_opt_of req) 0
                then py_div (- OptimizeRequest.beta req * p_opt_of req)
                            (OptimizeRequest.alpha req
                             - OptimizeRequest.beta req * p_opt_of req)
                else Ok 0) = Ok (elasticity_of req)).
  { unfold elasticity_of. destruct (Qgtb (q_opt_of req) 0) eqn:E; [|reflexivity].
    apply Qgtb_true in E. apply q_opt_of_pos in E. apply py_div_ok. lra. }
  rewrite Hm. cbn [bind]. rewrite He. cbn [bind]. reflexivity.
Qed.

End ValidRun.

(* ------------------------------------------------------------------ *)
(** ** Properties of [optimize_with_sympy]                              *)
(* ------------------------------------------------------------------ *)

(** C1.  On [alpha=1000, beta=2, c=50, F=2000, pMin=0, pMax=1000] the
    service returns [pOpt=275], [qOpt=450], [revenue=123750],
    [profitOpt=99250] and [usedBoundary=false]. *)
Theorem optimize_scenario :
  exists r,
    optimize_with_sympy scenario = Ok r
    /\ OptimizeResponse.pOpt r == 275
    /\ OptimizeResponse.qOpt r == 450
    /\ OptimizeResponse.revenue r == 123750
    /\ OptimizeResponse.profitOpt r == 99250
    /\ OptimizeResponse.usedBoundary r = false.
Proof.
  eexists. split; [vm_compute; reflexivity|].
  cbn [OptimizeResponse.pOpt OptimizeResponse.qOpt OptimizeResponse.revenue
       OptimizeResponse.profitOpt OptimizeResponse.usedBoundary].
  repeat split.
Qed.

Lemma tol_pos : 0 < tol.
Proof. reflexivity. Qed.

(** The boundary flag, read on the position of the stationary point. *)
Lemma used_boundary_iff (x lo hi : Q) :
  lo <= hi ->
  Qgtb (Qabs (clamp x lo hi - x)) tol = true
  <-> x < lo - tol \/ hi + tol < x.
Proof.
  intro Hb. rewrite Qgtb_true. pose proof tol_pos as Ht.
  destruct (clamp_cases x lo hi Hb) as [[H E]|[[H E]|[H E]]]; rewrite E.
  - rewrite Qabs_pos by lra. lra.
  - rewrite Qabs_neg by lra. lra.
  - rewrite Qabs_pos by lra. lra.
Qed.

(** C2.  On a valid request the number substituted into the clamp is the
    value of the solved formula, it equals [(alpha + beta*c)/(2*beta)], and
    it is the same whatever the fixed cost [F]. *)
Theorem p_star_is_closed_form (req : OptimizeRequest.t) :
  0 < OptimizeRequest.beta req ->
  OptimizeRequest.pMin req <= OptimizeRequest.pMax req ->
  exists e v r,
    sm_p_star SYMS = Some e
    /\ p_star_num req e = Ok v
    /\ v == closed_form req
    /\ (forall F', p_star_num (with_F req F') e = Ok v)
    /\ optimize_with_sympy req = Ok r
    /\ OptimizeResponse.pOpt r
       = clamp v (OptimizeRequest.pMin req) (OptimizeRequest.pMax req).
Proof.
  intros Hb Hp.
  exists p_star_formula, (p_star_value req), (response_of req).
  assert (Hnz : ~ OptimizeRequest.beta req == 0) by lra.
  split; [apply SYMS_p_star|].
  split; [apply p_star_num_ok; exact Hnz|].
  split; [apply p_star_value_closed_form; exact Hnz|].
  split; [intro F'; apply (p_star_num_ok (with_F req F')); exact Hnz|].
  split; [apply optimize_valid; assumption | reflexivity].
Qed.

Lemma p_star_is_closed_form_witness :
  exists e v r,
    sm_p_star SYMS = Some e
    /\ p_star_num scenario e = Ok v
    /\ v == closed_form scenario
    /\ (forall F', p_star_num (with_F scenario F') e = Ok v)
    /\ optimize_with_sympy scenario = Ok r
    /\ OptimizeResponse.pOpt r
       = clamp v (OptimizeRequest.pMin scenario) (OptimizeRequest.pMax scenario).
Proof.
  apply (p_star_is_closed_form scenario).
  - reflexivity.
  - discriminate.
Defined.

(** C3.  On a valid request the service returns a price inside
    [[pMin, pMax]]. *)
Theorem pOpt_within_bounds (req : OptimizeRequest.t) :
  0 < OptimizeRequest.beta req ->
  OptimizeRequest.pMin req <= OptimizeRequest.pMax req ->
  exists r,
    optimize_with_sympy req = Ok r
    /\ OptimizeRequest.pMin req <= OptimizeResponse.pOpt r
    /\ OptimizeResponse.pOpt r <= OptimizeRequest.pMax req.
Proof.
  intros Hb Hp. exists (response_of req).
  split; [apply optimize_valid; assumption|].
  unfold response_of. cbn [OptimizeResponse.pOpt]. unfold p_opt_of.
  destruct (clamp_cases (p_star_value req) _ _ Hp) as [[H E]|[[H E]|[H E]]];
    rewrite E; lra.
Qed.

Lemma pOpt_within_bounds_witness :
  exists r,
    optimize_with_sympy scenario = Ok r
    /\ OptimizeRequest.pMin scenario <= OptimizeResponse.pOpt r
    /\ OptimizeResponse.pOpt r <= OptimizeRequest.pMax scenario.
Proof.
  apply (pOpt_within_bounds scenario).
  - reflexivity.
  - discriminate.
Defined.

(** C4.  On a valid request the flag [usedBoundary] is the comparison
    [|clamp(pStar, pMin, pMax) - pStar| > 1e-12] at
    [pStar = (alpha + beta*c)/(2*beta)], and it is true exactly when
    [pStar] lies more than [1e-12] outside [[pMin, pMax]]. *)
Theorem usedBoundary_correct (req : OptimizeRequest.t) :
  0 < OptimizeRequest.beta req ->
  OptimizeRequest.pMin req <= OptimizeRequest.pMax req ->
  exists r,
    optimize_with_sympy req = Ok r
    /\ OptimizeResponse.usedBoundary r
       = Qgtb (Qabs (clamp (closed_form req) (OptimizeRequest.pMin req)
                       (OptimizeRequest.pMax req)
                     - closed_form req)) tol
    /\ (OptimizeResponse.usedBoundary r = true
        <-> closed_form req < OptimizeRequest.pMin req - tol
            \/ OptimizeRequest.pMax req + tol < closed_form req).
Proof.
  intros Hb Hp. exists (response_of req).
  split; [apply optimize_valid; assumption|].
  unfold response_of. cbn [OptimizeResponse.usedBoundary].
  unfold used_boundary_of, p_opt_of.
  assert (Hv : p_star_value req == closed_form req)
    by (apply p_star_value_closed_form; lra).
  rewrite Hv. split; [reflexivity|].
  apply used_boundary_iff. exact Hp.
Qed.

Lemma usedBoundary_correct_witness :
  exists r,
    optimize_with_sympy scenario = Ok r
    /\ OptimizeResponse.usedBoundary r
       = Qgtb (Qabs (clamp (closed_form scenario)
                       (OptimizeRequest.pMin scenario)
                       (OptimizeRequest.pMax scenario)
                     - closed_form scenario)) tol
    /\ (OptimizeResponse.usedBoundary r = true
        <-> closed_form scenario < OptimizeRequest.pMin scenario - tol
            \/ OptimizeRequest.pMax scenario + tol < closed_form scenario).
Proof.
  apply (usedBoundary_correct scenario).
  - reflexivity.
  - discriminate.
Defined.

(** C5.  On a valid request the returned quantity is never negative, and
    it is [0] when the demand law gives a negative number at the returned
    price. *)
Theorem qOpt_nonneg (req : OptimizeRequest.t) :
  0 < OptimizeRequest.beta req ->
  OptimizeRequest.pMin req <= OptimizeRequest.pMax req ->
  exists r,
    optimize_with_sympy req = Ok r
    /\ 0 <= OptimizeResponse.qOpt r
    /\ (OptimizeRequest.alpha req
        - OptimizeRequest.beta req * OptimizeResponse.pOpt r < 0 ->
        OptimizeResponse.qOpt r = 0).
Proof.
  intros Hb Hp. exists (response_of req).
  split; [apply optimize_valid; assumption|].
  unfold response_of. cbn [OptimizeResponse.qOpt OptimizeResponse.pOpt].
  split; [apply q_opt_of_nonneg|].
  intro Hneg. unfold q_opt_of.
  destruct (py_max_cases 0 (OptimizeRequest.alpha req
                            - OptimizeRequest.beta req * p_opt_of req))
    as [[H E]|[H E]]; [lra | exact E].
Qed.

Lemma qOpt_nonneg_witness :
  exists r,
    optimize_with_sympy floor_request = Ok r
    /\ 0 <= OptimizeResponse.qOpt r
    /\ (OptimizeRequest.alpha floor_request
        - OptimizeRequest.beta floor_request * OptimizeResponse.pOpt r < 0 ->
        OptimizeResponse.qOpt r = 0).
Proof.
  apply (qOpt_nonneg floor_request).
  - reflexivity.
  - discriminate.
Defined.

(** C6.  On a valid request the service returns (the division of the
    elasticity raises nothing); when [qOpt > 0] the denominator
    [alpha - beta*pOpt] is strictly positive and the elasticity is
    [(-beta*pOpt)/(alpha - beta*pOpt)]; when [qOpt = 0] the elasticity
    is [0]. *)
Theorem elasticity_defined (req : OptimizeRequest.t) :
  0 < OptimizeRequest.beta req ->
  OptimizeRequest.pMin req <= OptimizeRequest.pMax req ->
  exists r,
    optimize_with_sympy req = Ok r
    /\ (0 < OptimizeResponse.qOpt r ->
        0 < OptimizeRequest.alpha req
            - OptimizeRequest.beta req * OptimizeResponse.pOpt r
        /\ OptimizeResponse.elasticity r
           == (- OptimizeRequest.beta req * OptimizeResponse.pOpt r)
              / (OptimizeRequest.alpha req
                 - OptimizeRequest.beta req * OptimizeResponse.pOpt r))
    /\ (OptimizeResponse.qOpt r == 0 -> OptimizeResponse.elasticity r == 0).
Proof.
  intros Hb Hp. exists (response_of req).
  split; [apply optimize_valid; assumption|].
  unfold response_of.
  cbn [OptimizeResponse.qOpt OptimizeResponse.pOpt OptimizeResponse.elasticity].
  unfold elasticity_of. split.
  - intro Hq. split; [apply q_opt_of_pos; exact Hq|].
    apply Qgtb_true in Hq. rewrite Hq. reflexivity.
  - intro Hq.
    replace (Qgtb (q_opt_of req) 0) with false; [reflexivity|].
    symmetry. apply Qgtb_false. lra.
Qed.

Lemma elasticity_defined_witness :
  exists r,
    optimize_with_sympy floor_request = Ok r
    /\ (0 < OptimizeResponse.qOpt r ->
        0 < OptimizeRequest.alpha floor_request
            - OptimizeRequest.beta floor_request * OptimizeResponse.pOpt r
        /\ OptimizeResponse.elasticity r
           == (- OptimizeRequest.beta floor_request * OptimizeResponse.pOpt r)
              / (OptimizeRequest.alpha floor_request
                 - OptimizeRequest.beta floor_request * OptimizeResponse.pOpt r))
    /\ (OptimizeResponse.qOpt r == 0 -> OptimizeResponse.elasticity r == 0).
Proof.
  apply (elasticity_defined floor_request).
  - reflexivity.
  - discriminate.
Defined.

(** C10.  On a valid request, when [usedBoundary] is true the returned
    price is one of the two bounds. *)
Theorem usedBoundary_pOpt_is_bound (req : OptimizeRequest.t) :
  0 < OptimizeRequest.beta req ->
  OptimizeRequest.pMin req <= OptimizeRequest.pMax req ->
  exists r,
    optimize_with_sympy req = Ok r
    /\ (OptimizeResponse.usedBoundary r = true ->
        OptimizeResponse.pOpt r = OptimizeRequest.pMin req
        \/ OptimizeResponse.pOpt r = OptimizeRequest.pMax req).
Proof.
  intros Hb Hp. exists (response_of req).
  split; [apply optimize_valid; assumption|].
  unfold response_of.
  cbn [OptimizeResponse.usedBoundary OptimizeResponse.pOpt].
  unfold used_boundary_of, p_opt_of. intro Hu. apply Qgtb_true in Hu.
  pose proof tol_pos as Ht.
  destruct (clamp_cases (p_star_value req) _ _ Hp) as [[H E]|[[H E]|[H E]]].
  - left. exact E.
  - right. exact E.
  - exfalso. rewrite E in Hu. rewrite Qabs_pos in Hu by lra. lra.
Qed.

Lemma usedBoundary_pOpt_is_bound_witness :
  exists r,
    optimize_with_sympy floor_request = Ok r
    /\ (OptimizeResponse.usedBoundary r = true ->
        OptimizeResponse.pOpt r = OptimizeRequest.pMin floor_request
        \/ OptimizeResponse.pOpt r = OptimizeRequest.pMax floor_request).
Proof.
  apply (usedBoundary_pOpt_is_bound floor_request).
  - reflexivity.
  - discriminate.
Defined.

(* ------------------------------------------------------------------ *)
(** ** The run of [fit_linear]                                          *)
(* ------------------------------------------------------------------ *)

Lemma count_S (pt : FitPoint.t) (l : list FitPoint.t) :
  count (pt :: l) == count l + 1.
Proof.
  unfold count. cbn [List.length]. rewrite Nat2Z.inj_succ. unfold Z.succ.
  rewrite inject_Z_plus. reflexivity.
Qed.

Lemma count_nonneg (l : list FitPoint.t) : 0 <= count l.
Proof.
  unfold count. replace 0 with (inject_Z 0) by reflexivity.
  rewrite <- Zle_Qle. lia.
Qed.

Lemma count_pos (l : list FitPoint.t) : (2 <= List.length l)%nat -> 2 <= count l.
Proof.
  intro H. unfold count. replace 2 with (inject_Z 2) by reflexivity.
  rewrite <- Zle_Qle. lia.
Qed.

Lemma Qabs_ge_nonzero (x : Q) : tol <= Qabs x -> ~ x == 0.
Proof.
  intros H E. rewrite E in H. pose proof tol_pos. cbn in H. lra.
Qed.

(** The guards of [fit_linear] decide its outcome, in the order in which
    they are written; no division fails. *)
Lemma fit_linear_cases (pontos : list FitPoint.t) :
  fit_linear pontos =
    if (List.length pontos <? 2)%nat then Raise (BadRequest InsufficientData)
    else if Qltb (Qabs (Sxx pontos)) tol
         then Raise (BadRequest DegeneratePriceVariance)
    else if Qleb (- slope_of pontos) 0 then Raise (BadRequest NonDecreasingFit)
    else Ok (fit_of pontos).
Proof.
  unfold fit_linear.
  destruct (List.length pontos <? 2)%nat eqn:En; [reflexivity|].
  apply Nat.ltb_ge in En. apply count_pos in En.
  cbn [raise_if bind].
  rewrite (py_div_ok (py_sum FitPoint.price pontos)) by lra.
  cbn [bind].
  rewrite (py_div_ok (py_sum FitPoint.quantity pontos)) by lra.
  cbn [bind].
  change (py_sum (fun pt => FitPoint.price pt * FitPoint.price pt) pontos
          - count pontos * (py_sum FitPoint.price pontos / count pontos)
            * (py_sum FitPoint.price pontos / count pontos))
    with (Sxx pontos).
  destruct (Qltb (Qabs (Sxx pontos)) tol) eqn:Ex; [reflexivity|].
  apply Qltb_false in Ex. apply Qabs_ge_nonzero in Ex.
  cbn [raise_if bind].
  rewrite py_div_ok by exact Ex.
  cbn [bind].
  change (py_sum FitPoint.price pontos / count pontos) with (meanP_of pontos).
  change (py_sum FitPoint.quantity pontos / count pontos) with (meanQ_of pontos).
  change (py_sum (fun pt => FitPoint.price pt * FitPoint.quantity pt) pontos
          - count pontos * meanP_of pontos * meanQ_of pontos)
    with (Sxy pontos).
  change (Sxy pontos / Sxx pontos) with (slope_of pontos).
  change (meanQ_of pontos - slope_of pontos * meanP_of pontos)
    with (intercept_of pontos).
  change (py_sum (fun pt => (FitPoint.quantity pt - meanQ_of pontos) ^ 2) pontos)
    with (ss_tot_of pontos).
  change (py_sum (fun pt =>
            (FitPoint.quantity pt
             - (intercept_of pontos + slope_of pontos * FitPoint.price pt)) ^ 2)
          pontos)
    with (ss_res_of pontos).
  assert (Hr : (if Qgtb (ss_tot_of pontos) 0
                then ratio <- py_div (ss_res_of pontos) (ss_tot_of pontos) ;;
                     Ok (1 - ratio)
                else Ok 0) = Ok (r2_of pontos)).
  { unfold r2_of. destruct (Qgtb (ss_tot_of pontos) 0) eqn:Et; [|reflexivity].
    apply Qgtb_true in Et. rewrite py_div_ok by lra. reflexivity. }
  rewrite Hr. cbn [bind].
  destruct (Qleb (- slope_of pontos) 0); reflexivity.
Qed.

(* ------------------------------------------------------------------ *)
(** ** Sums over the observations                                       *)
(* ------------------------------------------------------------------ *)

Lemma fold_sum_acc {A : Type} (f : A -> Q) (l : list A) (a : Q) :
  fold_left (fun acc x => acc + f x) l a == a + py_sum f l.
Proof.
  unfold py_sum. revert a. induction l as [|x l IH]; intro a; cbn [fold_left].
  - ring.
  - rewrite (IH (a + f x)), (IH (0 + f x)). ring.
Qed.

Lemma py_sum_nil {A : Type} (f : A -> Q) : py_sum f [] = 0.
Proof. reflexivity. Qed.

Lemma count_nil : count [] = 0.
Proof. reflexivity. Qed.

Lemma py_sum_cons {A : Type} (f : A -> Q) (x : A) (l : list A) :
  py_sum f (x :: l) == f x + py_sum f l.
Proof.
  unfold py_sum at 1. cbn [fold_left]. rewrite fold_sum_acc. ring.
Qed.

Lemma py_sum_nonneg {A : Type} (f : A -> Q) (l : list A) :
  (forall x, 0 <= f x) -> 0 <= py_sum f l.
Proof.
  intro H. induction l as [|x l IH].
  - rewrite py_sum_nil. lra.
  - rewrite py_sum_cons. specialize (H x). lra.
Qed.

Lemma Qsq_nonneg (z : Q) : 0 <= z ^ 2.
Proof.
  assert (E : z ^ 2 == z * z) by ring. rewrite E. nra.
Qed.

Lemma on_line_tail (A B : Q) (pt : FitPoint.t) (l : list FitPoint.t) :
  on_line A B (pt :: l) -> on_line A B l.
Proof. intros H x Hx. apply H. right. exact Hx. Qed.

Section AffineSums.
Variable g : FitPoint.t -> Q.
Variables u w : Q.

Lemma affine_on_tail (pt : FitPoint.t) (l : list FitPoint.t) :
  affine_on g u w (pt :: l) -> affine_on g u w l.
Proof. intros H x Hx. apply H. right. exact Hx. Qed.

Lemma sum_affine (l : list FitPoint.t) :
  affine_on g u w l ->
  py_sum g l == count l * u - w * sumP_of l.
Proof.
  unfold sumP_of. induction l as [|pt l IH]; intro H.
  - rewrite !py_sum_nil, count_nil. ring.
  - rewrite !py_sum_cons, count_S, (IH (affine_on_tail _ _ H)).
    rewrite (H pt (or_introl eq_refl)). ring.
Qed.

Lemma sum_price_affine (l : list FitPoint.t) :
  affine_on g u w l ->
  py_sum (fun pt => FitPoint.price pt * g pt) l
  == u * sumP_of l - w * sumPP_of l.
Proof.
  unfold sumP_of, sumPP_of. induction l as [|pt l IH]; intro H.
  - rewrite !py_sum_nil. ring.
  - rewrite !py_sum_cons, (IH (affine_on_tail _ _ H)).
    rewrite (H pt (or_introl eq_refl)). ring.
Qed.

Lemma sum_sq_affine (l : list FitPoint.t) :
  affine_on g u w l ->
  py_sum (fun pt => g pt ^ 2) l
  == count l * (u * u) - 2 * u * w * sumP_of l + w * w * sumPP_of l.
Proof.
  unfold sumP_of, sumPP_of. induction l as [|pt l IH]; intro H.
  - rewrite !py_sum_nil, count_nil. ring.
  - rewrite !py_sum_cons, count_S, (IH (affine_on_tail _ _ H)).
    rewrite (H pt (or_introl eq_refl)). ring.
Qed.

End AffineSums.

(** [Sxx] is the sum of the squared deviations of the prices from their
    mean, hence never negative. *)
Lemma Sxx_sum_sq (l : list FitPoint.t) :
  ~ count l == 0 ->
  Sxx l == py_sum (fun pt => (FitPoint.price pt - meanP_of l) ^ 2) l.
Proof.
  intro Hn.
  rewrite (sum_sq_affine (fun pt => FitPoint.price pt - meanP_of l)
             (- meanP_of l) (- (1))).
  - unfold Sxx, meanP_of, sumP_of, sumPP_of. field. exact Hn.
  - intros pt _. ring.
Qed.

Lemma Sxx_nonneg (l : list FitPoint.t) : ~ count l == 0 -> 0 <= Sxx l.
Proof.
  intro Hn. rewrite (Sxx_sum_sq l Hn). apply py_sum_nonneg.
  intro x. apply Qsq_nonneg.
Qed.

(* ------------------------------------------------------------------ *)
(** ** Fitting noiseless data                                           *)
(* ------------------------------------------------------------------ *)

Section NoiselessFit.
Variables A B : Q.
Variable pontos : list FitPoint.t.
Hypothesis enough : (2 <= List.length pontos)%nat.
Hypothesis generated : on_line A B pontos.
Hypothesis spread : tol <= Sxx pontos.

Lemma noiseless_count : ~ count pontos == 0.
Proof. pose proof (count_pos pontos enough). lra. Qed.

Lemma noiseless_Sxx_pos : 0 < Sxx pontos.
Proof. pose proof tol_pos. lra. Qed.

Lemma noiseless_sumQ :
  py_sum FitPoint.quantity pontos == count pontos * A - B * sumP_of pontos.
Proof. apply sum_affine. exact generated. Qed.

Lemma noiseless_sumPQ :
  py_sum (fun pt => FitPoint.price pt * FitPoint.quantity pt) pontos
  == A * sumP_of pontos - B * sumPP_of pontos.
Proof. apply (sum_price_affine FitPoint.quantity). exact generated. Qed.

Lemma noiseless_meanQ : meanQ_of pontos == A - B * meanP_of pontos.
Proof.
  unfold meanQ_of, meanP_of. rewrite noiseless_sumQ. unfold sumP_of.
  field. exact noiseless_count.
Qed.

Lemma noiseless_Sxy : Sxy pontos == - B * Sxx pontos.
Proof.
  unfold Sxy. rewrite noiseless_sumPQ, noiseless_meanQ.
  unfold Sxx, meanP_of, sumP_of, sumPP_of. field. exact noiseless_count.
Qed.

Lemma noiseless_slope : slope_of pontos == - B.
Proof.
  unfold slope_of. rewrite noiseless_Sxy. field.
  pose proof noiseless_Sxx_pos. lra.
Qed.

Lemma noiseless_intercept : intercept_of pontos == A.
Proof.
  unfold intercept_of. rewrite noiseless_slope, noiseless_meanQ. ring.
Qed.

Lemma noiseless_ss_res : ss_res_of pontos == 0.
Proof.
  unfold ss_res_of.
  rewrite (sum_sq_affine
             (fun pt => FitPoint.quantity pt
                        - (intercept_of pontos
                           + slope_of pontos * FitPoint.price pt)) 0 0).
  - ring.
  - intros pt Hpt. rewrite (generated pt Hpt).
    rewrite noiseless_intercept, noiseless_slope. ring.
Qed.

Lemma noiseless_ss_tot : ss_tot_of pontos == B * B * Sxx pontos.
Proof.
  unfold ss_tot_of.
  rewrite (sum_sq_affine (fun pt => FitPoint.quantity pt - meanQ_of pontos)
             (A - meanQ_of pontos) B).
  - rewrite noiseless_meanQ.
    unfold Sxx, meanP_of, sumP_of, sumPP_of. field. exact noiseless_count.
  - intros pt Hpt. rewrite (generated pt Hpt). ring.
Qed.

Hypothesis decreasing : 0 < B.

Lemma noiseless_ss_tot_pos : 0 < ss_tot_of pontos.
Proof.
  rewrite noiseless_ss_tot. pose proof noiseless_Sxx_pos.
  apply Qmult_lt_0_compat; [apply Qmult_lt_0_compat|]; assumption.
Qed.

Lemma noiseless_r2 : r2_of pontos == 1.
Proof.
  unfold r2_of. pose proof noiseless_ss_tot_pos as Hp.
  replace (Qgtb (ss_tot_of pontos) 0) with true
    by (symmetry; apply Qgtb_true; exact Hp).
  rewrite noiseless_ss_res. field. lra.
Qed.

(** Data generated by [q = A - B*p] with [B > 0] and a price spread that
    passes the variance guard are fitted exactly. *)
Lemma fit_noiseless :
  fit_linear pontos = Ok (fit_of pontos)
  /\ FitResponse.alpha (fit_of pontos) == A
  /\ FitResponse.beta (fit_of pontos) == B
  /\ FitResponse.slope (fit_of pontos) == - B
  /\ FitResponse.intercept (fit_of pontos) == A
  /\ FitResponse.r2 (fit_of pontos) == 1.
Proof.
  split.
  - rewrite fit_linear_cases.
    replace (List.length pontos <? 2)%nat with false
      by (symmetry; apply Nat.ltb_ge; exact enough).
    replace (Qltb (Qabs (Sxx pontos)) tol) with false.
    2:{ symmetry. apply Qltb_false. pose proof noiseless_Sxx_pos.
        rewrite Qabs_pos by lra. exact spread. }
    replace (Qleb (- slope_of pontos) 0) with false; [reflexivity|].
    symmetry. apply Qleb_false. rewrite noiseless_slope. lra.
  - unfold fit_of.
    cbn [FitResponse.alpha FitResponse.beta FitResponse.slope
         FitResponse.intercept FitResponse.r2].
    rewrite noiseless_intercept, noiseless_slope, noiseless_r2.
    repeat split; try reflexivity. ring.
Qed.

End NoiselessFit.

(* ------------------------------------------------------------------ *)
(** ** Requests and responses up to the value of their numbers          *)
(* ------------------------------------------------------------------ *)

(** The guards of [optimize_with_sympy] decide its outcome, in the order
    in which they are written; nothing else raises. *)
Lemma optimize_cases (req : OptimizeRequest.t) :
  optimize_with_sympy req =
    if Qleb (OptimizeRequest.beta req) 0
    then Raise (BadRequest InvalidDemandSlope)
    else if Qgtb (OptimizeRequest.pMin req) (OptimizeRequest.pMax req)
         then Raise (BadRequest InvalidPriceBounds)
    else Ok (response_of req).
Proof.
  destruct (Qleb (OptimizeRequest.beta req) 0) eqn:Eb.
  - unfold optimize_with_sympy. rewrite Eb. reflexivity.
  - destruct (Qgtb (OptimizeRequest.pMin req) (OptimizeRequest.pMax req)) eqn:Ep.
    + unfold optimize_with_sympy. rewrite Eb, Ep. reflexivity.
    + apply optimize_valid.
      * apply Qleb_false. exact Eb.
      * apply Qgtb_false. exact Ep.
Qed.

Section SameNumbers.
Variables r1 r2 : OptimizeRequest.t.
Hypothesis same : req_eq r1 r2.

Lemma p_star_value_same : p_star_value r1 == p_star_value r2.
Proof.
  destruct same as (Ha & Hb & Hc & _). unfold p_star_value.
  rewrite Ha, Hb, Hc. reflexivity.
Qed.

Lemma p_opt_of_same : p_opt_of r1 == p_opt_of r2.
Proof.
  destruct same as (_ & _ & _ & _ & Hlo & Hhi). unfold p_opt_of.
  rewrite p_star_value_same, Hlo, Hhi. reflexivity.
Qed.

Lemma q_opt_of_same : q_opt_of r1 == q_opt_of r2.
Proof.
  destruct same as (Ha & Hb & _). unfold q_opt_of.
  rewrite p_opt_of_same, Ha, Hb. reflexivity.
Qed.

Lemma revenue_of_same : revenue_of r1 == revenue_of r2.
Proof.
  unfold revenue_of. rewrite p_opt_of_same, q_opt_of_same. reflexivity.
Qed.

Lemma margin_of_same : margin_of r1 == margin_of r2.
Proof.
  destruct same as (_ & _ & Hc & _). unfold margin_of.
  rewrite revenue_of_same.
  destruct (Qgtb (revenue_of r2) 0); [|reflexivity].
  rewrite revenue_of_same, q_opt_of_same, Hc. reflexivity.
Qed.

Lemma elasticity_of_same : elasticity_of r1 == elasticity_of r2.
Proof.
  destruct same as (Ha & Hb & _). unfold elasticity_of.
  rewrite q_opt_of_same.
  destruct (Qgtb (q_opt_of r2) 0); [|reflexivity].
  rewrite p_opt_of_same, Ha, Hb. reflexivity.
Qed.

Lemma used_boundary_of_same : used_boundary_of r1 = used_boundary_of r2.
Proof.
  unfold used_boundary_of. rewrite p_opt_of_same, p_star_value_same.
  reflexivity.
Qed.

Lemma response_of_same : resp_eq (response_of r1) (response_of r2).
Proof.
  unfold resp_eq, response_of.
  cbn [OptimizeResponse.pOpt OptimizeResponse.qOpt OptimizeResponse.profitOpt
       OptimizeResponse.revenue OptimizeResponse.margin
       OptimizeResponse.elasticity OptimizeResponse.usedBoundary
       OptimizeResponse.derivation].
  split; [apply p_opt_of_same|].
  split; [apply q_opt_of_same|].
  split.
  { destruct same as (_ & _ & Hc & HF & _).
    rewrite revenue_of_same, q_opt_of_same, Hc, HF. reflexivity. }
  split; [apply revenue_of_same|].
  split; [apply margin_of_same|].
  split; [apply elasticity_of_same|].
  split; [apply used_boundary_of_same | reflexivity].
Qed.

(** The service gives the same outcome on requests that carry the same
    numbers. *)
Lemma optimize_same :
  outcome_eq (optimize_with_sympy r1) (optimize_with_sympy r2).
Proof.
  rewrite !optimize_cases.
  destruct same as (_ & Hb & _ & _ & Hlo & Hhi).
  rewrite Hb, Hlo, Hhi.
  destruct (Qleb (OptimizeRequest.beta r2) 0); [reflexivity|].
  destruct (Qgtb (OptimizeRequest.pMin r2) (OptimizeRequest.pMax r2));
    [reflexivity|].
  apply response_of_same.
Qed.

End SameNumbers.

(* ------------------------------------------------------------------ *)
(** ** Properties of [fit_linear] and of the two rejections tables      *)
(* ------------------------------------------------------------------ *)

Lemma close_points_on_line : on_line 10 2 close_points.
Proof.
  intros pt [H|[H|[]]]; subst pt; reflexivity.
Qed.

Lemma close_points_distinct : distinct_prices close_points.
Proof.
  exists (FitPoint.mk 0 10),
         (FitPoint.mk (1 # 10000000) (10 - 2 * (1 # 10000000))).
  split; [left; reflexivity|]. split; [right; left; reflexivity|].
  discriminate.
Qed.

Lemma close_points_rejected :
  fit_linear close_points = Raise (BadRequest DegeneratePriceVariance).
Proof. vm_compute. reflexivity. Qed.

(** C7, as stated, fails: the two observations of [close_points] lie on
    [q = 10 - 2*p] at distinct prices, and the fit is rejected. *)
Lemma fit_exact_line_counterexample :
  (2 <= List.length close_points)%nat
  /\ on_line 10 2 close_points
  /\ distinct_prices close_points
  /\ fit_linear close_points = Raise (BadRequest DegeneratePriceVariance)
  /\ ~ (exists r,
          fit_linear close_points = Ok r
          /\ FitResponse.alpha r == 10
          /\ FitResponse.beta r == 2
          /\ FitResponse.r2 r == 1).
Proof.
  split; [cbn; lia|].
  split; [apply close_points_on_line|].
  split; [apply close_points_distinct|].
  split; [apply close_points_rejected|].
  intros (r & Hr & _). rewrite close_points_rejected in Hr. discriminate.
Qed.

(** C7, amended.  Two or more observations on [q = 10 - 2*p] whose price
    spread passes the variance guard ([Sxx >= 1e-12]) are fitted with
    [alpha = 10], [beta = 2] and [r2 = 1]. *)
Theorem fit_exact_line (pontos : list FitPoint.t) :
  (2 <= List.length pontos)%nat ->
  on_line 10 2 pontos ->
  tol <= Sxx pontos ->
  exists r,
    fit_linear pontos = Ok r
    /\ FitResponse.alpha r == 10
    /\ FitResponse.beta r == 2
    /\ FitResponse.r2 r == 1.
Proof.
  intros Hn Hl Hs.
  destruct (fit_noiseless 10 2 pontos Hn Hl Hs) as (Hf & Ha & Hb & _ & _ & Hr);
    [reflexivity|].
  exists (fit_of pontos). repeat split; assumption.
Qed.

Lemma line_points_on_line : on_line 10 2 line_points.
Proof.
  intros pt [H|[H|[H|[]]]]; subst pt; reflexivity.
Qed.

Lemma fit_exact_line_witness :
  exists r,
    fit_linear line_points = Ok r
    /\ FitResponse.alpha r == 10
    /\ FitResponse.beta r == 2
    /\ FitResponse.r2 r == 1.
Proof.
  apply (fit_exact_line line_points).
  - cbn. lia.
  - exact line_points_on_line.
  - vm_compute. discriminate.
Defined.




(** Case analysis on a guard, with its meaning in the context. *)
Ltac case_guard b :=
  let E := fresh "E" in
  destruct b eqn:E;
  [ first [ apply Qleb_true in E | apply Qgtb_true in E
          | apply Qltb_true in E | apply Nat.ltb_lt in E ]
  | first [ apply Qleb_false in E | apply Qgtb_false in E
          | apply Qltb_false in E | apply Nat.ltb_ge in E ] ].

Section OptimizeRejections.
Variable req : OptimizeRequest.t.

Lemma optimize_slope_iff :
  optimize_with_sympy req = Raise (BadRequest InvalidDemandSlope)
  <-> OptimizeRequest.beta req <= 0.
Proof.
  rewrite optimize_cases.
  case_guard (Qleb (OptimizeRequest.beta req) 0).
  - split; [intros _; assumption | reflexivity].
  - case_guard (Qgtb (OptimizeRequest.pMin req) (OptimizeRequest.pMax req));
      (split; [discriminate | lra]).
Qed.

Lemma optimize_bounds_iff :
  optimize_with_sympy req = Raise (BadRequest InvalidPriceBounds)
  <-> 0 < OptimizeRequest.beta req
      /\ OptimizeRequest.pMax req < OptimizeRequest.pMin req.
Proof.
  rewrite optimize_cases.
  case_guard (Qleb (OptimizeRequest.beta req) 0).
  - split; [discriminate | lra].
  - case_guard (Qgtb (OptimizeRequest.pMin req) (OptimizeRequest.pMax req)).
    + split; [intros _; split; assumption | reflexivity].
    + split; [discriminate | lra].
Qed.

Lemma optimize_returns_iff :
  (exists r, optimize_with_sympy req = Ok r)
  <-> 0 < OptimizeRequest.beta req
      /\ OptimizeRequest.pMin req <= OptimizeRequest.pMax req.
Proof.
  rewrite optimize_cases.
  case_guard (Qleb (OptimizeRequest.beta req) 0).
  - split; [intros [r Hr]; discriminate Hr | lra].
  - case_guard (Qgtb (OptimizeRequest.pMin req) (OptimizeRequest.pMax req)).
    + split; [intros [r Hr]; discriminate Hr | lra].
    + split; [intros _; split; assumption|].
      intros _. eexists. reflexivity.
Qed.

End OptimizeRejections.

Section FitRejections.
Variable pontos : list FitPoint.t.

Lemma fit_insufficient_iff :
  fit_linear pontos = Raise (BadRequest InsufficientData)
  <-> (List.length pontos < 2)%nat.
Proof.
  rewrite fit_linear_cases.
  case_guard (List.length pontos <? 2)%nat.
  - split; [intros _; assumption | reflexivity].
  - case_guard (Qltb (Qabs (Sxx pontos)) tol); [split; [discriminate | lia]|].
    case_guard (Qleb (- slope_of pontos) 0); (split; [discriminate | lia]).
Qed.

Lemma fit_degenerate_iff :
  fit_linear pontos = Raise (BadRequest DegeneratePriceVariance)
  <-> (2 <= List.length pontos)%nat /\ Qabs (Sxx pontos) < tol.
Proof.
  rewrite fit_linear_cases.
  case_guard (List.length pontos <? 2)%nat; [split; [discriminate | lia]|].
  case_guard (Qltb (Qabs (Sxx pontos)) tol).
  - split; [intros _; split; assumption | reflexivity].
  - case_guard (Qleb (- slope_of pontos) 0); (split; [discriminate | lra]).
Qed.

Lemma fit_nondecreasing_iff :
  fit_linear pontos = Raise (BadRequest NonDecreasingFit)
  <-> (2 <= List.length pontos)%nat
      /\ tol <= Qabs (Sxx pontos)
      /\ - slope_of pontos <= 0.
Proof.
  rewrite fit_linear_cases.
  case_guard (List.length pontos <? 2)%nat; [split; [discriminate | lia]|].
  case_guard (Qltb (Qabs (Sxx pontos)) tol); [split; [discriminate | lra]|].
  case_guard (Qleb (- slope_of pontos) 0).
  - split; [intros _; repeat split; assumption | reflexivity].
  - split; [discriminate | lra].
Qed.

Lemma fit_returns_iff :
  (exists r, fit_linear pontos = Ok r)
  <-> (2 <= List.length pontos)%nat
      /\ tol <= Qabs (Sxx pontos)
      /\ 0 < - slope_of pontos.
Proof.
  rewrite fit_linear_cases.
  case_guard (List.length pontos <? 2)%nat;
    [split; [intros [r Hr]; discriminate Hr | lia]|].
  case_guard (Qltb (Qabs (Sxx pontos)) tol);
    [split; [intros [r Hr]; discriminate Hr | lra]|].
  case_guard (Qleb (- slope_of pontos) 0).
  - split; [intros [r Hr]; discriminate Hr | lra].
  - split; [intros _; repeat split; assumption|].
    intros _. eexists. reflexivity.
Qed.

End FitRejections.

(** C8.  On doubles the fit breaks the rejection policy.  The two
    observations [(1, 1e155)] and [(2, 0)] break no validation rule, and
    the fit raises [OverflowError], which is none of the error kinds.  The
    three observations of [same_price_points] all have the price [56.9],
    and the fit returns a response, with [beta = 0.125] and [r2 = 0],
    instead of rejecting them for their price variance. *)
Theorem fit_on_doubles_breaks_rejections :
  Binary64.fit_linear Binary64.overflow_points
  = Binary64.Throw Binary64.OverflowError
  /\ (forall pt,
        In pt Binary64.same_price_points ->
        Binary64.price pt = 56.9%float)
  /\ exists r,
       Binary64.fit_linear Binary64.same_price_points = Binary64.Return r
       /\ Binary64.beta r = 0.125%float
       /\ Binary64.r2 r = 0%float.
Proof.
  split; [vm_compute; reflexivity|].
  split.
  - intros pt [H|[H|[H|[]]]]; subst pt; reflexivity.
  - eexists. split; [vm_compute; reflexivity|].
    split; reflexivity.
Qed.

(** On doubles, data generated by [q = 10 - 2*p] at the prices [1000] and
    [1000.001] are not fitted exactly: the fit returns [alpha < 9.1] and
    [beta < 1.9991]. *)
Lemma fit_on_doubles_not_exact :
  exists r,
    Binary64.fit_linear Binary64.generated_points = Binary64.Return r
    /\ PrimFloat.ltb (Binary64.alpha r) 9.1%float = true
    /\ PrimFloat.ltb (Binary64.beta r) 1.9991%float = true.
Proof.
  eexists. split; [vm_compute; reflexivity|].
  split; vm_compute; reflexivity.
Qed.

(* ------------------------------------------------------------------ *)
(** ** Further properties of [optimize_with_sympy]                      *)
(* ------------------------------------------------------------------ *)

(** The profit expression of the symbolic model denotes [profit_at]. *)
Lemma SYMS_pi_value (req : OptimizeRequest.t) (p : Q) :
  evalf (subs (full_env req p) (sm_pi SYMS)) = Ok (profit_at req p).
Proof. vm_compute sm_pi. reflexivity. Qed.

Lemma profit_difference (req : OptimizeRequest.t) (a b : Q) :
  ~ OptimizeRequest.beta req == 0 ->
  profit_at req a - profit_at req b
  == OptimizeRequest.beta req * (a - b) * (2 * closed_form req - a - b).
Proof. intro Hb. unfold profit_at, closed_form. field. lra. Qed.

Lemma Qmult_nonpos_nonpos (x y : Q) : x <= 0 -> y <= 0 -> 0 <= x * y.
Proof. intros. nra. Qed.



(** X2.  On a valid request the returned price is [pMin] when the closed
    form [(alpha + beta*c)/(2*beta)] is below [pMin], [pMax] when it is
    above [pMax], and the closed form itself, with [usedBoundary] false,
    when it lies in [[pMin, pMax]]. *)
Theorem pOpt_by_position (req : OptimizeRequest.t) :
  0 < OptimizeRequest.beta req ->
  OptimizeRequest.pMin req <= OptimizeRequest.pMax req ->
  exists r,
    optimize_with_sympy req = Ok r
    /\ (closed_form req < OptimizeRequest.pMin req ->
        OptimizeResponse.pOpt r = OptimizeRequest.pMin req)
    /\ (OptimizeRequest.pMax req < closed_form req ->
        OptimizeResponse.pOpt r = OptimizeRequest.pMax req)
    /\ (OptimizeRequest.pMin req <= closed_form req ->
        closed_form req <= OptimizeRequest.pMax req ->
        OptimizeResponse.pOpt r == closed_form req
        /\ OptimizeResponse.usedBoundary r = false).
Proof.
  intros Hb Hp. exists (response_of req).
  split; [apply optimize_valid; assumption|].
  unfold response_of.
  cbn [OptimizeResponse.pOpt OptimizeResponse.usedBoundary].
  assert (Hv : p_star_value req == closed_form req)
    by (apply p_star_value_closed_form; lra).
  unfold used_boundary_of, p_opt_of.
  pose proof tol_pos as Ht.
  destruct (clamp_cases (p_star_value req) _ _ Hp) as [[H E]|[[H E]|[H E]]];
    rewrite E.
  - split; [intros _; reflexivity|].
    split; [intro H1; exfalso; lra|].
    intros H1 H2. exfalso. lra.
  - split; [intro H1; exfalso; lra|].
    split; [intros _; reflexivity|].
    intros H1 H2. exfalso. lra.
  - split; [intro H1; exfalso; lra|].
    split; [intro H1; exfalso; lra|].
    intros _ _. split; [exact Hv|].
    apply Qgtb_false. rewrite Qabs_pos by lra. lra.
Qed.

Lemma pOpt_by_position_witness :
  exists r,
    optimize_with_sympy floor_request = Ok r
    /\ (closed_form floor_request < OptimizeRequest.pMin floor_request ->
        OptimizeResponse.pOpt r = OptimizeRequest.pMin floor_request)
    /\ (OptimizeRequest.pMax floor_request < closed_form floor_request ->
        OptimizeResponse.pOpt r = OptimizeRequest.pMax floor_request)
    /\ (OptimizeRequest.pMin floor_request <= closed_form floor_request ->
        closed_form floor_request <= OptimizeRequest.pMax floor_request ->
        OptimizeResponse.pOpt r == closed_form floor_request
        /\ OptimizeResponse.usedBoundary r = false).
Proof.
  apply (pOpt_by_position floor_request).
  - reflexivity.
  - discriminate.
Defined.

(** X3.  On a valid request, when the demand law gives no positive
    quantity at the returned price, the service reports [qOpt = 0],
    [revenue = 0], [profitOpt = -F], [margin = 0] and [elasticity = 0]. *)
Theorem no_demand_at_pOpt (req : OptimizeRequest.t) :
  0 < OptimizeRequest.beta req ->
  OptimizeRequest.pMin req <= OptimizeRequest.pMax req ->
  exists r,
    optimize_with_sympy req = Ok r
    /\ (OptimizeRequest.alpha req
        - OptimizeRequest.beta req * OptimizeResponse.pOpt r <= 0 ->
        OptimizeResponse.qOpt r = 0
        /\ OptimizeResponse.revenue r == 0
        /\ OptimizeResponse.profitOpt r == - OptimizeRequest.F req
        /\ OptimizeResponse.margin r = 0
        /\ OptimizeResponse.elasticity r = 0).
Proof.
  intros Hb Hp. exists (response_of req).
  split; [apply optimize_valid; assumption|].
  unfold response_of.
  cbn [OptimizeResponse.pOpt OptimizeResponse.qOpt OptimizeResponse.revenue
       OptimizeResponse.profitOpt OptimizeResponse.margin
       OptimizeResponse.elasticity].
  intro Hq.
  assert (Eq : q_opt_of req = 0).
  { unfold q_opt_of.
    destruct (py_max_cases 0 (OptimizeRequest.alpha req
                              - OptimizeRequest.beta req * p_opt_of req))
      as [[H E]|[H E]]; [lra | exact E]. }
  assert (Er : revenue_of req == 0) by (unfold revenue_of; rewrite Eq; ring).
  split; [exact Eq|]. split; [exact Er|].
  split; [rewrite Er, Eq; ring|].
  split.
  - unfold margin_of.
    replace (Qgtb (revenue_of req) 0) with false; [reflexivity|].
    symmetry. apply Qgtb_false. lra.
  - unfold elasticity_of. rewrite Eq. reflexivity.
Qed.

Lemma no_demand_at_pOpt_witness :
  exists r,
    optimize_with_sympy floor_request = Ok r
    /\ (OptimizeRequest.alpha floor_request
        - OptimizeRequest.beta floor_request * OptimizeResponse.pOpt r <= 0 ->
        OptimizeResponse.qOpt r = 0
        /\ OptimizeResponse.revenue r == 0
        /\ OptimizeResponse.profitOpt r == - OptimizeRequest.F floor_request
        /\ OptimizeResponse.margin r = 0
        /\ OptimizeResponse.elasticity r = 0).
Proof.
  apply (no_demand_at_pOpt floor_request).
  - reflexivity.
  - discriminate.
Defined.





(** X6.  On a valid request the fixed cost [F] moves nothing but the
    profit: with another [F'] the service returns the same price,
    quantity, revenue, margin, elasticity and flag, and a profit shifted by
    [F - F']. *)
Theorem fixed_cost_shifts_profit_only (req : OptimizeRequest.t) (F' : Q) :
  0 < OptimizeRequest.beta req ->
  OptimizeRequest.pMin req <= OptimizeRequest.pMax req ->
  exists r r',
    optimize_with_sympy req = Ok r
    /\ optimize_with_sympy (with_F req F') = Ok r'
    /\ OptimizeResponse.pOpt r' = OptimizeResponse.pOpt r
    /\ OptimizeResponse.qOpt r' = OptimizeResponse.qOpt r
    /\ OptimizeResponse.revenue r' = OptimizeResponse.revenue r
    /\ OptimizeResponse.margin r' = OptimizeResponse.margin r
    /\ OptimizeResponse.elasticity r' = OptimizeResponse.elasticity r
    /\ OptimizeResponse.usedBoundary r' = OptimizeResponse.usedBoundary r
    /\ OptimizeResponse.profitOpt r'
       == OptimizeResponse.profitOpt r + OptimizeRequest.F req - F'.
Proof.
  intros Hb Hp. exists (response_of req), (response_of (with_F req F')).
  split; [apply optimize_valid; assumption|].
  split; [apply optimize_valid; assumption|].
  repeat (split; [reflexivity|]).
  unfold response_of. cbn [OptimizeResponse.profitOpt].
  change (revenue_of (with_F req F')) with (revenue_of req).
  change (q_opt_of (with_F req F')) with (q_opt_of req).
  cbn [with_F OptimizeRequest.F OptimizeRequest.c]. ring.
Qed.

Lemma fixed_cost_shifts_profit_only_witness :
  exists r r',
    optimize_with_sympy scenario = Ok r
    /\ optimize_with_sympy (with_F scenario 0) = Ok r'
    /\ OptimizeResponse.pOpt r' = OptimizeResponse.pOpt r
    /\ OptimizeResponse.qOpt r' = OptimizeResponse.qOpt r
    /\ OptimizeResponse.revenue r' = OptimizeResponse.revenue r
    /\ OptimizeResponse.margin r' = OptimizeResponse.margin r
    /\ OptimizeResponse.elasticity r' = OptimizeResponse.elasticity r
    /\ OptimizeResponse.usedBoundary r' = OptimizeResponse.usedBoundary r
    /\ OptimizeResponse.profitOpt r'
       == OptimizeResponse.profitOpt r + OptimizeRequest.F scenario - 0.
Proof.
  apply (fixed_cost_shifts_profit_only scenario 0).
  - reflexivity.
  - discriminate.
Defined.

Lemma field_constraints_inv (req : OptimizeRequest.t) :
  OptimizeRequest.field_constraints req = true ->
  0 <= OptimizeRequest.alpha req /\ 0 < OptimizeRequest.beta req
  /\ 0 <= OptimizeRequest.c req /\ 0 <= OptimizeRequest.F req
  /\ 0 <= OptimizeRequest.pMin req /\ 0 <= OptimizeRequest.pMax req.
Proof.
  unfold OptimizeRequest.field_constraints. rewrite !andb_true_iff.
  intros (((((Ha & Hb) & Hc) & HF) & Hlo) & Hhi).
  apply Qleb_true in Ha, Hc, HF, Hlo, Hhi. apply Qltb_true in Hb.
  repeat split; assumption.
Qed.

(** X7.  A request that satisfies the field constraints of
    [OptimizeRequest] is never rejected for its slope; it is rejected for
    its bounds when [pMin > pMax], and otherwise the service returns with
    [pOpt >= 0], [qOpt <= alpha], [revenue >= 0] and [elasticity <= 0]. *)
Theorem validated_request_ranges (req : OptimizeRequest.t) :
  OptimizeRequest.field_constraints req = true ->
  optimize_with_sympy req <> Raise (BadRequest InvalidDemandSlope)
  /\ (OptimizeRequest.pMax req < OptimizeRequest.pMin req ->
      optimize_with_sympy req = Raise (BadRequest InvalidPriceBounds))
  /\ (OptimizeRequest.pMin req <= OptimizeRequest.pMax req ->
      exists r,
        optimize_with_sympy req = Ok r
        /\ 0 <= OptimizeResponse.pOpt r
        /\ OptimizeResponse.qOpt r <= OptimizeRequest.alpha req
        /\ 0 <= OptimizeResponse.revenue r
        /\ OptimizeResponse.elasticity r <= 0).
Proof.
  intro Hf. apply field_constraints_inv in Hf.
  destruct Hf as (Ha & Hb & Hc & HF & Hlo & Hhi).
  split.
  { intro H. apply optimize_slope_iff in H. lra. }
  split.
  { intro H. apply optimize_bounds_iff. split; assumption. }
  intro Hp. exists (response_of req).
  split; [apply optimize_valid; assumption|].
  unfold response_of.
  cbn [OptimizeResponse.pOpt OptimizeResponse.qOpt OptimizeResponse.revenue
       OptimizeResponse.elasticity].
  assert (Hp0 : 0 <= p_opt_of req).
  { unfold p_opt_of.
    destruct (clamp_cases (p_star_value req) _ _ Hp) as [[H E]|[[H E]|[H E]]];
      rewrite E; lra. }
  assert (Hbp : 0 <= OptimizeRequest.beta req * p_opt_of req)
    by (apply Qmult_le_0_compat; lra).
  pose proof (q_opt_of_nonneg req) as Hq0.
  assert (Hqa : q_opt_of req <= OptimizeRequest.alpha req).
  { unfold q_opt_of.
    destruct (py_max_cases 0 (OptimizeRequest.alpha req
                              - OptimizeRequest.beta req * p_opt_of req))
      as [[H E]|[H E]]; rewrite E; lra. }
  assert (Hr0 : 0 <= revenue_of req)
    by (unfold revenue_of; apply Qmult_le_0_compat; assumption).
  split; [exact Hp0|]. split; [exact Hqa|]. split; [exact Hr0|].
  unfold elasticity_of. destruct (Qgtb (q_opt_of req) 0) eqn:E; [|lra].
  apply Qgtb_true in E. apply q_opt_of_pos in E.
  apply Qle_shift_div_r; [exact E|]. lra.
Qed.

Lemma validated_request_ranges_witness :
  optimize_with_sympy scenario <> Raise (BadRequest InvalidDemandSlope)
  /\ (OptimizeRequest.pMax scenario < OptimizeRequest.pMin scenario ->
      optimize_with_sympy scenario = Raise (BadRequest InvalidPriceBounds))
  /\ (OptimizeRequest.pMin scenario <= OptimizeRequest.pMax scenario ->
      exists r,
        optimize_with_sympy scenario = Ok r
        /\ 0 <= OptimizeResponse.pOpt r
        /\ OptimizeResponse.qOpt r <= OptimizeRequest.alpha scenario
        /\ 0 <= OptimizeResponse.revenue r
        /\ OptimizeResponse.elasticity r <= 0).
Proof.
  apply (validated_request_ranges scenario). reflexivity.
Defined.

(** X8.  For a decreasing demand the number that the solved formula gives
    is a stationary point of the profit: the first derivative built by
    [_build_symbolic_model] is [0] there, and the second derivative is
    negative. *)
Theorem first_and_second_order (req : OptimizeRequest.t) :
  0 < OptimizeRequest.beta req ->
  exists e v d1 d2,
    sm_p_star SYMS = Some e
    /\ p_star_num req e = Ok v
    /\ evalf (subs (full_env req v) (sm_dpi SYMS)) = Ok d1
    /\ d1 == 0
    /\ evalf (subs (full_env req v) (sm_d2 SYMS)) = Ok d2
    /\ d2 < 0.
Proof.
  intro Hb. exists p_star_formula, (p_star_value req).
  eexists. eexists.
  split; [apply SYMS_p_star|].
  split; [apply p_star_num_ok; lra|].
  split; [vm_compute sm_dpi; cbn; reflexivity|].
  split; [unfold p_star_value; field; lra|].
  split; [vm_compute sm_d2; cbn; reflexivity|].
  lra.
Qed.

Lemma first_and_second_order_witness :
  exists e v d1 d2,
    sm_p_star SYMS = Some e
    /\ p_star_num scenario e = Ok v
    /\ evalf (subs (full_env scenario v) (sm_dpi SYMS)) = Ok d1
    /\ d1 == 0
    /\ evalf (subs (full_env scenario v) (sm_d2 SYMS)) = Ok d2
    /\ d2 < 0.
Proof.
  apply (first_and_second_order scenario). reflexivity.
Defined.

(* ------------------------------------------------------------------ *)
(** ** Further properties of [fit_linear]                               *)
(* ------------------------------------------------------------------ *)

(** Sums of pointwise equal terms are equal. *)
Lemma py_sum_ext {A : Type} (f g : A -> Q) (l : list A) :
  (forall x, f x == g x) -> py_sum f l == py_sum g l.
Proof.
  intro H. induction l as [|x l IH].
  - reflexivity.
  - rewrite !py_sum_cons, IH, (H x). reflexivity.
Qed.

(** The residual sum of a line, in the five sums of the observations. *)
Lemma rss_expand (l : list FitPoint.t) (a b : Q) :
  rss l a b
  == sumQQ_of l - 2 * a * sumQ_of l - 2 * b * sumPQ_of l
     + count l * (a * a) + 2 * a * b * sumP_of l + b * b * sumPP_of l.
Proof.
  unfold rss, sumQQ_of, sumQ_of, sumPQ_of, sumP_of, sumPP_of.
  induction l as [|pt l IH].
  - rewrite !py_sum_nil, count_nil. ring.
  - rewrite !py_sum_cons, count_S, IH. ring.
Qed.

(** The residual sum of any line, around the fitted quantities. *)
Lemma rss_decompose (l : list FitPoint.t) (a b : Q) :
  ~ count l == 0 ->
  rss l a b
  == Syy l - 2 * b * Sxy l + b * b * Sxx l
     + count l * ((a - (meanQ_of l - b * meanP_of l))
                  * (a - (meanQ_of l - b * meanP_of l))).
Proof.
  intro Hn. rewrite rss_expand.
  unfold Syy, Sxy, Sxx, meanQ_of, meanP_of, sumQQ_of, sumQ_of, sumPQ_of,
    sumP_of, sumPP_of.
  field. exact Hn.
Qed.

Lemma ss_res_rss (l : list FitPoint.t) :
  ss_res_of l = rss l (intercept_of l) (slope_of l).
Proof. reflexivity. Qed.

Lemma ss_tot_rss (l : list FitPoint.t) : ss_tot_of l == rss l (meanQ_of l) 0.
Proof.
  unfold ss_tot_of, rss. apply py_sum_ext. intro x. ring.
Qed.

Lemma ss_tot_Syy (l : list FitPoint.t) : ~ count l == 0 -> ss_tot_of l == Syy l.
Proof.
  intro Hn. rewrite ss_tot_rss, (rss_decompose l _ _ Hn). ring.
Qed.

Lemma ss_res_value (l : list FitPoint.t) :
  ~ count l == 0 -> ~ Sxx l == 0 ->
  ss_res_of l == Syy l - Sxy l * Sxy l / Sxx l.
Proof.
  intros Hn Hx. rewrite ss_res_rss, (rss_decompose l _ _ Hn).
  unfold intercept_of, slope_of. field. exact Hx.
Qed.

Lemma rss_gap (l : list FitPoint.t) (a b : Q) :
  ~ count l == 0 -> ~ Sxx l == 0 ->
  rss l a b - ss_res_of l
  == Sxx l * ((b - slope_of l) * (b - slope_of l))
     + count l * ((a - (meanQ_of l - b * meanP_of l))
                  * (a - (meanQ_of l - b * meanP_of l))).
Proof.
  intros Hn Hx. rewrite (ss_res_value l Hn Hx), (rss_decompose l _ _ Hn).
  unfold slope_of. field. exact Hx.
Qed.

Lemma rss_nonneg (l : list FitPoint.t) (a b : Q) : 0 <= rss l a b.
Proof. unfold rss. apply py_sum_nonneg. intro x. apply Qsq_nonneg. Qed.

Lemma Qsquare_nonneg (z : Q) : 0 <= z * z.
Proof. nra. Qed.

(** What a successful fit tells about the observations. *)
Lemma fit_ok_inv (l : list FitPoint.t) (r : FitResponse.t) :
  fit_linear l = Ok r ->
  (2 <= List.length l)%nat /\ tol <= Sxx l /\ 0 < - slope_of l /\ r = fit_of l.
Proof.
  intro H.
  assert (Hex : exists r0, fit_linear l = Ok r0) by (exists r; exact H).
  apply fit_returns_iff in Hex. destruct Hex as (Hn & Hx & Hs).
  assert (Hc : ~ count l == 0) by (pose proof (count_pos l Hn); lra).
  pose proof (Sxx_nonneg l Hc) as Hx0.
  rewrite Qabs_pos in Hx by exact Hx0.
  split; [exact Hn|]. split; [exact Hx|]. split; [exact Hs|].
  rewrite fit_linear_cases in H.
  destruct (List.length l <? 2)%nat; [discriminate|].
  destruct (Qltb (Qabs (Sxx l)) tol); [discriminate|].
  destruct (Qleb (- slope_of l) 0); [discriminate|].
  inversion H. reflexivity.
Qed.













(** A sum does not depend on the order of its terms. *)
Lemma py_sum_perm {A : Type} (f : A -> Q) (l l' : list A) :
  Permutation l l' -> py_sum f l == py_sum f l'.
Proof.
  intro H. induction H as [|x l l' H IH|x y l|l l' l'' H1 IH1 H2 IH2].
  - reflexivity.
  - rewrite !py_sum_cons, IH. reflexivity.
  - rewrite !py_sum_cons. ring.
  - rewrite IH1. exact IH2.
Qed.

Section Reordered.
Variables l l' : list FitPoint.t.
Hypothesis reordered : Permutation l l'.

Lemma count_perm : count l = count l'.
Proof. unfold count. now rewrite (Permutation_length reordered). Qed.

Lemma meanP_perm : meanP_of l == meanP_of l'.
Proof.
  unfold meanP_of. rewrite count_perm, (py_sum_perm _ _ _ reordered).
  reflexivity.
Qed.

Lemma meanQ_perm : meanQ_of l == meanQ_of l'.
Proof.
  unfold meanQ_of. rewrite count_perm, (py_sum_perm _ _ _ reordered).
  reflexivity.
Qed.

Lemma Sxx_perm : Sxx l == Sxx l'.
Proof.
  unfold Sxx. rewrite count_perm.
  rewrite (py_sum_perm FitPoint.price _ _ reordered).
  rewrite (py_sum_perm (fun pt => FitPoint.price pt * FitPoint.price pt)
             _ _ reordered).
  reflexivity.
Qed.

Lemma Sxy_perm : Sxy l == Sxy l'.
Proof.
  unfold Sxy. rewrite count_perm, meanP_perm, meanQ_perm.
  rewrite (py_sum_perm (fun pt => FitPoint.price pt * FitPoint.quantity pt)
             _ _ reordered).
  reflexivity.
Qed.

Lemma slope_perm : slope_of l == slope_of l'.
Proof. unfold slope_of. rewrite Sxy_perm, Sxx_perm. reflexivity. Qed.

Lemma intercept_perm : intercept_of l == intercept_of l'.
Proof.
  unfold intercept_of. rewrite meanQ_perm, slope_perm, meanP_perm.
  reflexivity.
Qed.

Lemma ss_tot_perm : ss_tot_of l == ss_tot_of l'.
Proof.
  unfold ss_tot_of. rewrite (py_sum_perm _ _ _ reordered).
  apply py_sum_ext. intro x. rewrite meanQ_perm. reflexivity.
Qed.

Lemma ss_res_perm : ss_res_of l == ss_res_of l'.
Proof.
  unfold ss_res_of. rewrite (py_sum_perm _ _ _ reordered).
  apply py_sum_ext. intro x. rewrite intercept_perm, slope_perm. reflexivity.
Qed.

Lemma r2_perm : r2_of l == r2_of l'.
Proof.
  unfold r2_of. rewrite ss_tot_perm.
  destruct (Qgtb (ss_tot_of l') 0); [|reflexivity].
  rewrite ss_res_perm, ss_tot_perm. reflexivity.
Qed.

End Reordered.



Lemma Sxx_two (a b : FitPoint.t) :
  Sxx [a; b]
  == (FitPoint.price a - FitPoint.price b)
     * (FitPoint.price a - FitPoint.price b) * (1 # 2).
Proof.
  unfold Sxx. rewrite !py_sum_cons, !py_sum_nil.
  change (count [a; b]) with 2. field.
Qed.



(* ------------------------------------------------------------------ *)
(** ** Properties of the HTTP handlers                                  *)
(* ------------------------------------------------------------------ *)

Lemma float_field_satisfies (coerce : json -> option Q) (c : constraint)
  (d : list (string * json)) (k : string) (x : Q) :
  float_field coerce c d k = Some x -> satisfies c x = true.
Proof.
  unfold float_field. destruct (dict_get k d) as [v|]; [|discriminate].
  destruct (coerce v) as [y|]; [|discriminate].
  destruct (satisfies c y) eqn:E; [|discriminate].
  intro H. inversion H. subst. exact E.
Qed.

(** A request that pydantic built satisfies the field constraints. *)
Lemma OptimizeRequest_init_constraints (coerce : json -> option Q)
  (d : list (string * json)) (req : OptimizeRequest.t) :
  OptimizeRequest_init coerce d = Some req ->
  OptimizeRequest.field_constraints req = true.
Proof.
  unfold OptimizeRequest_init.
  destruct (float_field coerce ge0 d "alpha") as [a|] eqn:Ea; [|discriminate].
  destruct (float_field coerce gt0 d "beta") as [b|] eqn:Eb; [|discriminate].
  destruct (float_field coerce ge0 d "c") as [c|] eqn:Ec; [|discriminate].
  destruct (float_field coerce ge0 d "F") as [F|] eqn:EF; [|discriminate].
  destruct (float_field coerce ge0 d "pMin") as [lo|] eqn:Elo; [|discriminate].
  destruct (float_field coerce ge0 d "pMax") as [hi|] eqn:Ehi; [|discriminate].
  intro H. inversion H. subst req.
  apply float_field_satisfies in Ea, Eb, Ec, EF, Elo, Ehi.
  unfold OptimizeRequest.field_constraints. cbn in *.
  rewrite Ea, Eb, Ec, EF, Elo, Ehi. reflexivity.
Qed.

Section NumberPayloads.
Variable coerce : json -> option Q.
Hypothesis coerce_number : forall q, coerce (JNum q) = Some q.

Lemma OptimizeRequest_init_payload (req : OptimizeRequest.t) (d : list (string * json)) :
  optimize_payload req = JObj d ->
  OptimizeRequest_init coerce d
  = if OptimizeRequest.field_constraints req then Some req else None.
Proof.
  intro H. inversion H. subst d. clear H.
  destruct req as [a b c F lo hi].
  unfold OptimizeRequest_init, float_field, OptimizeRequest.field_constraints.
  cbn. rewrite !coerce_number.
  destruct (Qleb 0 a), (Qltb 0 b), (Qleb 0 c), (Qleb 0 F), (Qleb 0 lo),
    (Qleb 0 hi); reflexivity.
Qed.

Lemma post_optimize_payload (req : OptimizeRequest.t) :
  post_optimize coerce POST (GetJson (optimize_payload req))
  = if OptimizeRequest.field_constraints req
    then match optimize_with_sympy req with
         | Ok res => {| body := OptimizeJson res; status := 200 |}
         | Raise e => error_response (StrOfRaised e) 500
         end
    else error_response StrOfValidationError 422.
Proof.
  unfold post_optimize, optimize_payload.
  rewrite (OptimizeRequest_init_payload req _ eq_refl).
  destruct (OptimizeRequest.field_constraints req); reflexivity.
Qed.

Lemma all_valid_points (pontos : list FitPoint.t) :
  all_valid (FitPoint_init coerce) (map point_json pontos) = Some pontos.
Proof.
  induction pontos as [|pt l IH].
  - reflexivity.
  - cbn [map all_valid]. rewrite IH.
    destruct pt as [p q]. unfold FitPoint_init, point_json, float_field.
    cbn. rewrite !coerce_number. reflexivity.
Qed.

Lemma post_fit_payload (pontos : list FitPoint.t) :
  post_fit coerce POST (GetJson (fit_payload pontos))
  = match fit_linear pontos with
    | Ok res => {| body := FitJson res; status := 200 |}
    | Raise e => error_response (StrOfRaised e) 500
    end.
Proof.
  unfold post_fit, fit_payload, FitRequest_init.
  cbn [dict_get String.eqb Ascii.eqb Bool.eqb].
  rewrite all_valid_points. reflexivity.
Qed.

End NumberPayloads.

(** X17.  A POST to [/optimize] whose JSON object holds a number for each
    of the six fields is answered 422 exactly when a field constraint
    fails; with [pMin > pMax] and the constraints met, it is answered 500
    with the text of the bounds rejection; and it is answered 200 with the
    response of the service exactly when the constraints are met and
    [pMin <= pMax]. *)
Theorem post_optimize_statuses (coerce : json -> option Q)
  (req : OptimizeRequest.t) :
  (forall q, coerce (JNum q) = Some q) ->
  (status (post_optimize coerce POST (GetJson (optimize_payload req))) = 422%nat
   <-> OptimizeRequest.field_constraints req = false)
  /\ (post_optimize coerce POST (GetJson (optimize_payload req))
      = error_response (StrOfRaised (BadRequest InvalidPriceBounds)) 500
      <-> OptimizeRequest.field_constraints req = true
          /\ OptimizeRequest.pMax req < OptimizeRequest.pMin req)
  /\ ((exists res,
         optimize_with_sympy req = Ok res
         /\ post_optimize coerce POST (GetJson (optimize_payload req))
            = {| body := OptimizeJson res; status := 200 |})
      <-> OptimizeRequest.field_constraints req = true
          /\ OptimizeRequest.pMin req <= OptimizeRequest.pMax req).
Proof.
  intro Hc. rewrite (post_optimize_payload coerce Hc req).
  destruct (OptimizeRequest.field_constraints req) eqn:Ef.
  - pose proof (field_constraints_inv req Ef) as (_ & Hb & _).
    rewrite optimize_cases.
    replace (Qleb (OptimizeRequest.beta req) 0) with false
      by (symmetry; apply Qleb_false; exact Hb).
    destruct (Qgtb (OptimizeRequest.pMin req) (OptimizeRequest.pMax req)) eqn:Ep;
      [apply Qgtb_true in Ep | apply Qgtb_false in Ep]; cbn.
    + split; [split; discriminate|].
      split; [split; [intros _; split; [reflexivity | exact Ep] | reflexivity]|].
      split; [intros (res & H & _); discriminate H | intros [_ H]; lra].
    + split; [split; discriminate|].
      split; [split; [discriminate | intros [_ H]; lra]|].
      split; [intros _; split; [reflexivity | exact Ep]|].
      intros _. eexists. split; reflexivity.
  - cbn. split; [split; reflexivity|].
    split; [split; [discriminate | intros [H _]; discriminate H]|].
    split; [|intros [H _]; discriminate H].
    intros (res & _ & H). discriminate H.
Qed.

Lemma post_optimize_statuses_witness :
  (status (post_optimize numbers_only POST (GetJson (optimize_payload scenario)))
   = 422%nat
   <-> OptimizeRequest.field_constraints scenario = false)
  /\ (post_optimize numbers_only POST (GetJson (optimize_payload scenario))
      = error_response (StrOfRaised (BadRequest InvalidPriceBounds)) 500
      <-> OptimizeRequest.field_constraints scenario = true
          /\ OptimizeRequest.pMax scenario < OptimizeRequest.pMin scenario)
  /\ ((exists res,
         optimize_with_sympy scenario = Ok res
         /\ post_optimize numbers_only POST (GetJson (optimize_payload scenario))
            = {| body := OptimizeJson res; status := 200 |})
      <-> OptimizeRequest.field_constraints scenario = true
          /\ OptimizeRequest.pMin scenario <= OptimizeRequest.pMax scenario).
Proof.
  apply (post_optimize_statuses numbers_only scenario).
  intro q. reflexivity.
Defined.

(** Every response of the handler of [/optimize] has one of six shapes. *)
Lemma post_optimize_shape (coerce : json -> option Q) (method : http_method)
  (request : json_request) :
  post_optimize coerce method request = {| body := EmptyBody; status := 204 |}
  \/ post_optimize coerce method request = error_response StrOfOther 500
  \/ post_optimize coerce method request
     = error_response (Literal "Corpo JSON ausente ou inválido.") 422
  \/ post_optimize coerce method request
     = error_response StrOfValidationError 422
  \/ post_optimize coerce method request
     = error_response (StrOfRaised (BadRequest InvalidPriceBounds)) 500
  \/ (exists req res,
        OptimizeRequest.field_constraints req = true
        /\ optimize_with_sympy req = Ok res
        /\ post_optimize coerce method request
           = {| body := OptimizeJson res; status := 200 |}).
Proof.
  assert (Hbody :
    forall d,
      match OptimizeRequest_init coerce d with
      | None => error_response StrOfValidationError 422
      | Some req =>
          match optimize_with_sympy req with
          | Ok res => {| body := OptimizeJson res; status := 200 |}
          | Raise e => error_response (StrOfRaised e) 500
          end
      end = error_response StrOfValidationError 422
      \/ match OptimizeRequest_init coerce d with
         | None => error_response StrOfValidationError 422
         | Some req =>
             match optimize_with_sympy req with
             | Ok res => {| body := OptimizeJson res; status := 200 |}
             | Raise e => error_response (StrOfRaised e) 500
             end
         end = error_response (StrOfRaised (BadRequest InvalidPriceBounds)) 500
      \/ exists req res,
           OptimizeRequest.field_constraints req = true
           /\ optimize_with_sympy req = Ok res
           /\ match OptimizeRequest_init coerce d with
              | None => error_response StrOfValidationError 422
              | Some req =>
                  match optimize_with_sympy req with
                  | Ok res => {| body := OptimizeJson res; status := 200 |}
                  | Raise e => error_response (StrOfRaised e) 500
                  end
              end = {| body := OptimizeJson res; status := 200 |}).
  { intro d. destruct (OptimizeRequest_init coerce d) as [req|] eqn:Ei;
      [|left; reflexivity].
    pose proof (OptimizeRequest_init_constraints coerce d req Ei) as Hf.
    pose proof (field_constraints_inv req Hf) as (_ & Hb & _).
    destruct (optimize_with_sympy req) as [res|e] eqn:Eo.
    - right. right. exists req, res. auto.
    - right. left. rewrite optimize_cases in Eo.
      replace (Qleb (OptimizeRequest.beta req) 0) with false in Eo
        by (symmetry; apply Qleb_false; exact Hb).
      destruct (Qgtb (OptimizeRequest.pMin req) (OptimizeRequest.pMax req));
        [|discriminate]. inversion Eo. reflexivity. }
  destruct method; cbn [post_optimize]; [| |left; reflexivity].
  all: destruct request as [|[| | | | |d]]; auto.
  all: destruct (Hbody d) as [H|[H|H]]; auto 10.
Qed.

(** X18.  Whatever the method and the body, [/optimize] answers 200, 204,
    422 or 500; the only exception of the service whose text reaches a
    client is the bounds rejection, always with status 500 (the slope
    rejection never does); and a 200 carries the response of the service
    for a request that meets the field constraints. *)
Theorem post_optimize_rejections (coerce : json -> option Q)
  (method : http_method) (request : json_request) :
  (status (post_optimize coerce method request) = 200%nat
   \/ status (post_optimize coerce method request) = 204%nat
   \/ status (post_optimize coerce method request) = 422%nat
   \/ status (post_optimize coerce method request) = 500%nat)
  /\ (forall e,
        body (post_optimize coerce method request) = ErrorJson (StrOfRaised e) ->
        e = BadRequest InvalidPriceBounds
        /\ status (post_optimize coerce method request) = 500%nat)
  /\ (status (post_optimize coerce method request) = 200%nat ->
      exists req res,
        OptimizeRequest.field_constraints req = true
        /\ optimize_with_sympy req = Ok res
        /\ body (post_optimize coerce method request) = OptimizeJson res).
Proof.
  destruct (post_optimize_shape coerce method request)
    as [H|[H|[H|[H|[H|(req & res & Hf & Ho & H)]]]]]; rewrite H; cbn.
  - split; [auto|]. split; [intros e E; discriminate E | discriminate].
  - split; [auto|]. split; [intros e E; discriminate E | discriminate].
  - split; [auto|]. split; [intros e E; discriminate E | discriminate].
  - split; [auto|]. split; [intros e E; discriminate E | discriminate].
  - split; [auto|]. split; [|discriminate].
    intros e E. inversion E. split; reflexivity.
  - split; [auto|]. split; [intros e E; discriminate E|].
    intros _. exists req, res. auto.
Qed.

(** Every response of the handler of [/fit] has one of six shapes. *)
Lemma post_fit_shape (coerce : json -> option Q) (method : http_method)
  (request : json_request) :
  post_fit coerce method request = {| body := EmptyBody; status := 204 |}
  \/ post_fit coerce method request = error_response StrOfOther 500
  \/ post_fit coerce method request
     = error_response (Literal "Corpo JSON ausente ou inválido.") 422
  \/ post_fit coerce method request = error_response StrOfValidationError 422
  \/ (exists k,
        (k = InsufficientData \/ k = DegeneratePriceVariance
         \/ k = NonDecreasingFit)
        /\ post_fit coerce method request
           = error_response (StrOfRaised (BadRequest k)) 500)
  \/ (exists data res,
        fit_linear data = Ok res
        /\ post_fit coerce method request
           = {| body := FitJson res; status := 200 |}).
Proof.
  assert (Hfit : forall data,
    (exists k,
       (k = InsufficientData \/ k = DegeneratePriceVariance
        \/ k = NonDecreasingFit)
       /\ fit_linear data = Raise (BadRequest k))
    \/ exists res, fit_linear data = Ok res).
  { intro data. rewrite fit_linear_cases.
    destruct (List.length data <? 2)%nat; [left; eauto|].
    destruct (Qltb (Qabs (Sxx data)) tol); [left; eauto|].
    destruct (Qleb (- slope_of data) 0); [left; eauto 6 | right; eauto]. }
  destruct method; cbn [post_fit]; [| |left; reflexivity].
  all: destruct request as [|[| | | | |d]]; auto.
  all: destruct (FitRequest_init coerce d) as [data|]; auto.
  all: destruct (Hfit data) as [(k & Hk & E)|(res & E)]; rewrite E.
  all: try (right; right; right; right; left; exists k; split;
            [exact Hk | reflexivity]).
  all: right; right; right; right; right; exists data, res; split;
    [exact E | reflexivity].
Qed.


(** X20.  A POST to [/fit] whose [data] is a list of objects holding a
    number for [price] and for [quantity] is never answered 422: it is
    answered 200 with the response of the fit when the fit returns, and 500
    with the text of the exception when the fit raises; in particular with
    fewer than two observations. *)
Theorem post_fit_statuses (coerce : json -> option Q)
  (pontos : list FitPoint.t) :
  (forall q, coerce (JNum q) = Some q) ->
  status (post_fit coerce POST (GetJson (fit_payload pontos))) <> 422%nat
  /\ ((List.length pontos < 2)%nat ->
      post_fit coerce POST (GetJson (fit_payload pontos))
      = error_response (StrOfRaised (BadRequest InsufficientData)) 500)
  /\ (forall res,
        post_fit coerce POST (GetJson (fit_payload pontos))
        = {| body := FitJson res; status := 200 |}
        <-> fit_linear pontos = Ok res)
  /\ (forall e,
        post_fit coerce POST (GetJson (fit_payload pontos))
        = error_response (StrOfRaised e) 500
        <-> fit_linear pontos = Raise e).
Proof.
  intro Hc. rewrite (post_fit_payload coerce Hc pontos).
  split.
  { destruct (fit_linear pontos); cbn; discriminate. }
  split.
  { intro Hn. apply fit_insufficient_iff in Hn. rewrite Hn. reflexivity. }
  split.
  - intro res. destruct (fit_linear pontos) as [r|e]; cbn.
    + split; intro H; inversion H; reflexivity.
    + split; discriminate.
  - intro e. destruct (fit_linear pontos) as [r|e']; cbn.
    + split; discriminate.
    + split; intro H; inversion H; reflexivity.
Qed.

Lemma post_fit_statuses_witness :
  status (post_fit numbers_only POST (GetJson (fit_payload single_point)))
  <> 422%nat
  /\ ((List.length single_point < 2)%nat ->
      post_fit numbers_only POST (GetJson (fit_payload single_point))
      = error_response (StrOfRaised (BadRequest InsufficientData)) 500)
  /\ (forall res,
        post_fit numbers_only POST (GetJson (fit_payload single_point))
        = {| body := FitJson res; status := 200 |}
        <-> fit_linear single_point = Ok res)
  /\ (forall e,
        post_fit numbers_only POST (GetJson (fit_payload single_point))
        = error_response (StrOfRaised e) 500
        <-> fit_linear single_point = Raise e).
Proof.
  apply (post_fit_statuses numbers_only single_point).
  intro q. reflexivity.
Defined.
